(** * Task lifecycle, inventory ledger and media attachments of the
    tilal backend, as a shallow embedding of the JavaScript sources.

    Documents are records, MongoDB collections are finite maps from
    ObjectId strings to documents, and every controller is a function
    from the store to a response and the store it leaves behind.  A
    thrown exception is kept apart from a returned response, so that
    what was persisted before the throw stays visible. *)

From Stdlib Require Import QArith Qround Lqa ZArith.
From stdpp Require Import gmap strings list fin_maps pretty.

(** ** JavaScript values the controllers look at *)

(** An ObjectId, always compared through [toString()]. *)
Definition oid := string.

(** A [Date], as milliseconds since the epoch. *)
Definition date := Z.
Bind Scope Z_scope with date.

(** A [Number] holding a measured quantity.  Only [+], [-], [/], [<] and
    [Math.round] are applied to such numbers; they are taken exactly. *)
Definition number := Q.
Bind Scope Q_scope with number.

Definition Qltb (x y : Q) : bool := negb (Qle_bool y x).

(** What a [throw] carries: a plain [Error(message)], the [TypeError] of
    a property read on [null], or a Mongoose validation failure on a
    schema path. *)
Inductive exn :=
| Error (message : string)
| TypeError
| ValidationError (path : string).

(** ** models/Inventory.js *)
Module Inventory.

Record t := mk {
  name : string;
  current : number;   (* quantity.current *)
  minimum : number;   (* quantity.minimum *)
  isActive : bool
}.

Definition set_current (q : number) (i : t) : t :=
  mk (name i) q (minimum i) (isActive i).

(** [quantity.current] carries the validator [min: 0]; [save] runs it
    on the modified path before writing. *)
Definition validate (i : t) : exn + t :=
  if Qle_bool 0 (current i) then inr i
  else inl (ValidationError "quantity.current").


(** inventorySchema.methods.deduct, on the document in memory: the
    result is the document handed to the collection, or the throw. *)
Definition deduct (amount : number) (i : t) : exn + t :=
  if Qltb (current i) amount then inl (Error "Insufficient stock")
  else validate (set_current (current i - amount)%Q i).

End Inventory.

(** ** Status enum shared by [Task.status] and [Section.lastTaskStatus] *)
Inductive TaskStatus :=
| pending | assigned | in_progress | completed | review | rejected.

#[global] Instance TaskStatus_eq_dec : EqDecision TaskStatus.
Proof. solve_decision. Defined.

(** ** models/Site.js and models/Section.js *)

(** One entry of [section.referenceImages].  [mediaType], [format] and
    [duration] exist in the Section.js schema only; in the embedded
    schema of Site.js they read as [undefined]. *)
Module RefImage.
Record t := mk {
  _id : oid;
  url : option string;
  cloudinaryId : option string;
  caption : option string;
  mediaType : option string;
  format : option string;
  duration : option number;
  uploadedAt : option date;
  qtn : option number;
  description : option string
}.
End RefImage.

Module Section.
Record t := mk {
  _id : oid;
  name : string;
  referenceImages : list RefImage.t;
  lastTaskStatus : option TaskStatus;
  lastTaskDate : option date;
  lastTaskId : option oid
}.

Definition set_lastTask (st : TaskStatus) (d : date) (tid : oid) (s : t) : t :=
  mk (_id s) (name s) (referenceImages s) (Some st) (Some d) (Some tid).

Definition set_referenceImages (l : list RefImage.t) (s : t) : t :=
  mk (_id s) (name s) l (lastTaskStatus s) (lastTaskDate s) (lastTaskId s).
End Section.

Module Site.
Record t := mk {
  client : oid;
  sections : list Section.t;
  totalTasks : Z;
  completedTasks : Z;
  lastVisit : option date
}.

Definition set_sections (l : list Section.t) (s : t) : t :=
  mk (client s) l (totalTasks s) (completedTasks s) (lastVisit s).

(** [{ $inc: { completedTasks: 1 }, lastVisit: now }] *)
Definition incCompleted (now : date) (s : t) : t :=
  mk (client s) (sections s) (totalTasks s) (completedTasks s + 1)%Z (Some now).

(** [this.sections.id(sectionId)]: the first subdocument with that id. *)
Definition id (sectionId : oid) (l : list Section.t) : option Section.t :=
  List.find (fun sec => bool_decide (Section._id sec = sectionId)) l.

(** Assignment through the subdocument returned by [sections.id]:
    the first match is changed in place. *)
Fixpoint update_id (sectionId : oid) (f : Section.t -> Section.t)
    (l : list Section.t) : list Section.t :=
  match l with
  | [] => []
  | sec :: rest =>
      if bool_decide (Section._id sec = sectionId) then f sec :: rest
      else sec :: update_id sectionId f rest
  end.

(** siteSchema.methods.updateSectionLastTask, on the document in
    memory; [None] is the early [return] that skips [save]. *)
Definition updateSectionLastTask (sectionId : oid) (taskStatus : TaskStatus)
    (taskId : oid) (now : date) (s : t) : option t :=
  match id sectionId (sections s) with
  | None => None
  | Some _ =>
      Some (set_sections
              (update_id sectionId (Section.set_lastTask taskStatus now taskId)
                         (sections s)) s)
  end.
End Site.

(** Modelled from the spec: models/Client.js is not among the sources;
    a client carries the two aggregate counters the controllers
    increment. *)
Module Client.
Record t := mk { totalTasks : Z; completedTasks : Z }.
Definition incCompleted (c : t) : t := mk (totalTasks c) (completedTasks c + 1)%Z.
End Client.

(** Role of an authenticated principal ([req.user.role]). *)
Inductive Role := admin | worker | client.

#[global] Instance Role_eq_dec : EqDecision Role.
Proof. solve_decision. Defined.

(** Modelled from the spec: models/User.js is not among the sources;
    a user has a role and, for workers, [workerDetails.completedTasks]. *)
Module User.
Record t := mk { role : Role; completedTasks : Z }.
Definition incCompleted (u : t) : t := mk (role u) (completedTasks u + 1)%Z.
End User.

(** ** models/Task.js *)

(** An entry of [images.before] / [images.after]. *)
Module Attachment.
Record t := mk {
  _id : oid;
  url : option string;
  cloudinaryId : option string;
  thumbnail : option string;
  mediaType : option string;
  format : option string;
  duration : option number;
  uploadedAt : date;
  uploadedBy : oid;
  isVisibleToClient : bool
}.

Definition set_isVisibleToClient (b : bool) (a : t) : t :=
  mk (_id a) (url a) (cloudinaryId a) (thumbnail a) (mediaType a) (format a)
     (duration a) (uploadedAt a) (uploadedBy a) b.
End Attachment.

(** An entry of [task.referenceImages], as the object literal built in
    [createTask]; the [_id] Mongoose gives each stored copy is left out,
    nothing below reads it. *)
Module Snapshot.
Record t := mk {
  url : option string;
  cloudinaryId : option string;
  caption : option string;
  mediaType : string;
  format : option string;
  duration : option number;
  uploadedAt : option date;
  qtn : number;
  description : option string;
  originalSectionId : oid
}.
End Snapshot.

Module Material.
Record t := mk {
  item : option oid;
  name : string;
  quantity : number;
  unit : string;
  confirmed : bool
}.
End Material.

(** The one feedback record of a task.  An assignment to
    [task.feedback] replaces the record; [isSatisfiedOnly] left out of
    the assigned object reads as [false]. *)
Module Feedback.
Record t := mk {
  rating : Z;
  comment : string;
  imageNumber : option Z;
  image : option string;
  cloudinaryId : option string;
  submittedAt : date;
  isSatisfiedOnly : bool
}.
End Feedback.

(** [startLocation] / [endLocation]. *)
Module Fix.
Record t := mk { latitude : number; longitude : number; timestamp : date }.
End Fix.

Module Cost.
Record t := mk { labor : number; materials : number; total : number }.
End Cost.

Module Images.
Record t := mk { before : list Attachment.t; after : list Attachment.t }.
End Images.

(** The task document.  Title, description, priority, category, notes,
    branch, invoice and the admin review take part in no operation
    below and are left out. *)
Module Task.
Record t := mk {
  site : oid;
  sections : list oid;
  client : oid;
  worker : option oid;
  status : TaskStatus;
  scheduledDate : date;
  actualDuration : number;
  startLocation : option Fix.t;
  endLocation : option Fix.t;
  images : Images.t;
  referenceImages : list Snapshot.t;
  materials : list Material.t;
  cost : Cost.t;
  startedAt : option date;
  completedAt : option date;
  feedback : option Feedback.t
}.

Definition set_worker (w : option oid) (x : t) : t :=
  mk (site x) (sections x) (client x) w (status x) (scheduledDate x)
     (actualDuration x) (startLocation x) (endLocation x) (images x)
     (referenceImages x) (materials x) (cost x) (startedAt x) (completedAt x)
     (feedback x).
Definition set_status (s : TaskStatus) (x : t) : t :=
  mk (site x) (sections x) (client x) (worker x) s (scheduledDate x)
     (actualDuration x) (startLocation x) (endLocation x) (images x)
     (referenceImages x) (materials x) (cost x) (startedAt x) (completedAt x)
     (feedback x).
Definition set_actualDuration (d : number) (x : t) : t :=
  mk (site x) (sections x) (client x) (worker x) (status x) (scheduledDate x)
     d (startLocation x) (endLocation x) (images x)
     (referenceImages x) (materials x) (cost x) (startedAt x) (completedAt x)
     (feedback x).
Definition set_startLocation (l : option Fix.t) (x : t) : t :=
  mk (site x) (sections x) (client x) (worker x) (status x) (scheduledDate x)
     (actualDuration x) l (endLocation x) (images x)
     (referenceImages x) (materials x) (cost x) (startedAt x) (completedAt x)
     (feedback x).
Definition set_endLocation (l : option Fix.t) (x : t) : t :=
  mk (site x) (sections x) (client x) (worker x) (status x) (scheduledDate x)
     (actualDuration x) (startLocation x) l (images x)
     (referenceImages x) (materials x) (cost x) (startedAt x) (completedAt x)
     (feedback x).
Definition set_images (i : Images.t) (x : t) : t :=
  mk (site x) (sections x) (client x) (worker x) (status x) (scheduledDate x)
     (actualDuration x) (startLocation x) (endLocation x) i
     (referenceImages x) (materials x) (cost x) (startedAt x) (completedAt x)
     (feedback x).
Definition set_cost (c : Cost.t) (x : t) : t :=
  mk (site x) (sections x) (client x) (worker x) (status x) (scheduledDate x)
     (actualDuration x) (startLocation x) (endLocation x) (images x)
     (referenceImages x) (materials x) c (startedAt x) (completedAt x)
     (feedback x).
Definition set_startedAt (d : option date) (x : t) : t :=
  mk (site x) (sections x) (client x) (worker x) (status x) (scheduledDate x)
     (actualDuration x) (startLocation x) (endLocation x) (images x)
     (referenceImages x) (materials x) (cost x) d (completedAt x)
     (feedback x).
Definition set_completedAt (d : option date) (x : t) : t :=
  mk (site x) (sections x) (client x) (worker x) (status x) (scheduledDate x)
     (actualDuration x) (startLocation x) (endLocation x) (images x)
     (referenceImages x) (materials x) (cost x) (startedAt x) d
     (feedback x).
Definition set_feedback (f : option Feedback.t) (x : t) : t :=
  mk (site x) (sections x) (client x) (worker x) (status x) (scheduledDate x)
     (actualDuration x) (startLocation x) (endLocation x) (images x)
     (referenceImages x) (materials x) (cost x) (startedAt x) (completedAt x)
     f.

(** [Math.round]: the nearest integer, halves towards +infinity. *)
Definition Math_round (x : Q) : Z := Qfloor (x + (1 # 2))%Q.

(** taskSchema.pre("save") *)
Definition pre_save (x : t) : t :=
  let x1 :=
    match startedAt x, completedAt x with
    | Some s, Some c =>
        let duration := (inject_Z (c - s) / inject_Z (1000 * 60 * 60))%Q in
        set_actualDuration (inject_Z (Math_round (duration * 100)) / 100)%Q x
    | _, _ => x
    end in
  set_cost (Cost.mk (Cost.labor (cost x1)) (Cost.materials (cost x1))
                    (Cost.labor (cost x1) + Cost.materials (cost x1))%Q) x1.
End Task.

Arguments Task.pre_save : simpl never.
Arguments Task.Math_round : simpl never.

(** ** The persistent store and the effects of a request handler *)

Record Store := mkStore {
  tasks : gmap oid Task.t;
  sites : gmap oid Site.t;
  clients : gmap oid Client.t;
  users : gmap oid User.t;
  inventory : gmap oid Inventory.t
}.

Definition on_tasks (f : gmap oid Task.t -> gmap oid Task.t) (s : Store) : Store :=
  mkStore (f (tasks s)) (sites s) (clients s) (users s) (inventory s).
Definition on_sites (f : gmap oid Site.t -> gmap oid Site.t) (s : Store) : Store :=
  mkStore (tasks s) (f (sites s)) (clients s) (users s) (inventory s).
Definition on_clients (f : gmap oid Client.t -> gmap oid Client.t) (s : Store) : Store :=
  mkStore (tasks s) (sites s) (f (clients s)) (users s) (inventory s).
Definition on_users (f : gmap oid User.t -> gmap oid User.t) (s : Store) : Store :=
  mkStore (tasks s) (sites s) (clients s) (f (users s)) (inventory s).
Definition on_inventory (f : gmap oid Inventory.t -> gmap oid Inventory.t) (s : Store) : Store :=
  mkStore (tasks s) (sites s) (clients s) (users s) (f (inventory s)).

(** An [async] body: it reads and writes the store and either yields a
    value or throws; writes made before a throw are kept. *)
Definition M (A : Type) : Type := Store -> (exn + A) * Store.

#[global] Instance M_ret : MRet M := fun A (a : A) s => (inr a, s).
#[global] Instance M_bind : MBind M := fun A B (k : A -> M B) (c : M A) s =>
  match c s with
  | (inr a, s') => k a s'
  | (inl e, s') => (inl e, s')
  end.

Definition throw {A} (e : exn) : M A := fun s => (inl e, s).
Definition gets {A} (f : Store -> A) : M A := fun s => (inr (f s), s).
Definition modify (f : Store -> Store) : M unit := fun s => (inr tt, f s).
Definition lift {A} (r : exn + A) : M A := fun s => (r, s).

(** [for (const x of l) { await f(x) }] *)
Fixpoint forEach {A} (f : A -> M unit) (l : list A) : M unit :=
  match l with
  | [] => mret tt
  | x :: rest => _ ← f x; forEach f rest
  end.

(** ** Responses *)

Inductive Data :=
| NoData
| TaskData (t : Task.t)
| ImagesData (i : Images.t)
| FeedbackData (f : option Feedback.t)
| CountData (updatedCount : nat) (isVisible : bool).

(** [res.status(code).json({ success, message, error, data })] *)
Record Response := mkResponse {
  code : Z;
  success : bool;
  message : string;
  error : option exn;
  data : Data
}.

Definition ok (c : Z) (msg : string) (d : Data) : Response :=
  mkResponse c true msg None d.
Definition reject (c : Z) (msg : string) : Response :=
  mkResponse c false msg None NoData.

(** The [try { ... } catch (error) { res.status(500)... }] around every
    controller. *)
Definition handler (failure : string) (body : M Response) (s : Store)
    : Response * Store :=
  match body s with
  | (inr r, s') => (r, s')
  | (inl e, s') => (mkResponse 500 false failure (Some e) NoData, s')
  end.

(** [req.user] *)
Record Principal := mkPrincipal { id : oid; role : Role }.

(** [task.save()]: the pre-save hook runs on the document, which is then
    written under its id; the hooked document is what the caller holds. *)
Definition Task_save (taskId : oid) (doc : Task.t) : M Task.t :=
  let doc' := Task.pre_save doc in
  _ ← modify (on_tasks (insert taskId doc'));
  mret doc'.

(** [inventoryItem.deduct(amount)] on the document fetched under [itemId]. *)
Definition Inventory_deduct (itemId : oid) (doc : Inventory.t) (amount : number)
    : M Inventory.t :=
  doc' ← lift (Inventory.deduct amount doc);
  _ ← modify (on_inventory (insert itemId doc'));
  mret doc'.

(** ** controllers/taskController.js *)

(** [req.body] of the generic update.  Each field is a path handed to
    [findByIdAndUpdate]; [None] is an absent key.  The cost fields stand
    for the dotted paths ["cost.labor"] and ["cost.materials"]. *)
Module Body.
Record t := mk {
  worker : option oid;
  status : option TaskStatus;
  startedAt : option date;
  completedAt : option date;
  cost_labor : option number;
  cost_materials : option number
}.

Definition set_status (st : option TaskStatus) (b : t) : t :=
  mk (worker b) st (startedAt b) (completedAt b) (cost_labor b) (cost_materials b).
Definition set_completedAt (d : option date) (b : t) : t :=
  mk (worker b) (status b) (startedAt b) d (cost_labor b) (cost_materials b).

Definition empty : t := mk None None None None None None.
End Body.

Definition or_keep {A} (new : option A) (old : A) : A :=
  match new with Some v => v | None => old end.

(** The [$set] of [Task.findByIdAndUpdate(id, req.body)]: supplied paths
    are overwritten, the others kept.  No save hook runs here. *)
Definition applyUpdate (b : Body.t) (x : Task.t) : Task.t :=
  Task.mk (Task.site x) (Task.sections x) (Task.client x)
    (match Body.worker b with Some w => Some w | None => Task.worker x end)
    (or_keep (Body.status b) (Task.status x))
    (Task.scheduledDate x) (Task.actualDuration x)
    (Task.startLocation x) (Task.endLocation x) (Task.images x)
    (Task.referenceImages x) (Task.materials x)
    (Cost.mk (or_keep (Body.cost_labor b) (Cost.labor (Task.cost x)))
             (or_keep (Body.cost_materials b) (Cost.materials (Task.cost x)))
             (Cost.total (Task.cost x)))
    (match Body.startedAt b with Some d => Some d | None => Task.startedAt x end)
    (match Body.completedAt b with Some d => Some d | None => Task.completedAt x end)
    (Task.feedback x).

(** Body of the material loop on first assignment. *)
Definition deductMaterial (material : Material.t) : M unit :=
  match Material.item material with
  | None => mret tt
  | Some itemId =>
      inventoryItem ← gets (fun s => inventory s !! itemId);
      match inventoryItem with
      | None => mret tt
      | Some doc =>
          _ ← Inventory_deduct itemId doc (Material.quantity material);
          mret tt
      end
  end.

(** [for (const sectionId of task.sections)
       await site.updateSectionLastTask(sectionId, st, task._id)]
    on the one site document fetched before the loop. *)
Fixpoint updateSections (siteId : oid) (st : TaskStatus) (taskId : oid)
    (now : date) (ids : list oid) (doc : Site.t) : M Site.t :=
  match ids with
  | [] => mret doc
  | sectionId :: rest =>
      match Site.updateSectionLastTask sectionId st taskId now doc with
      | None => updateSections siteId st taskId now rest doc
      | Some doc' =>
          _ ← modify (on_sites (insert siteId doc'));
          updateSections siteId st taskId now rest doc'
      end
  end.

Definition propagate (st : TaskStatus) (taskId : oid) (task : Task.t)
    (now : date) : M unit :=
  found ← gets (fun s => sites s !! Task.site task);
  match found with
  | None => mret tt
  | Some doc =>
      _ ← updateSections (Task.site task) st taskId now (Task.sections task) doc;
      mret tt
  end.

(** The cascade of [updateTask] when the body marks the task completed. *)
Definition completionCascade (taskId : oid) (task : Task.t) (now : date) : M unit :=
  _ ← modify (on_clients (alter Client.incCompleted (Task.client task)));
  _ ← match Task.worker task with
      | Some w => modify (on_users (alter User.incCompleted w))
      | None => mret tt
      end;
  _ ← modify (on_sites (alter (Site.incCompleted now) (Task.site task)));
  propagate completed taskId task now.

Definition updateTask (user : Principal) (taskId : oid) (body : Body.t)
    (now : date) : Store -> Response * Store :=
  handler "Server error" (
    found ← gets (fun s => tasks s !! taskId);
    match found with
    | None => mret (reject 404 "Task not found")
    | Some task =>
        if bool_decide (role user = worker)
           && negb (bool_decide (Task.worker task = Some (id user)))
        then mret (reject 403 "Not authorized to update this task")
        else
          body1 ←
            (if bool_decide (is_Some (Body.worker body))
                && bool_decide (Task.worker task = None)
             then
               _ ← forEach deductMaterial (Task.materials task);
               mret (Body.set_status (Some assigned) body)
             else mret body);
          body2 ←
            (if bool_decide (Body.status body1 = Some completed)
                && negb (bool_decide (Task.status task = completed))
             then
               _ ← completionCascade taskId task now;
               mret (Body.set_completedAt (Some now) body1)
             else mret body1);
          _ ← (if bool_decide (Body.status body2 = Some rejected)
                  && negb (bool_decide (Task.status task = rejected))
               then propagate rejected taskId task now
               else mret tt);
          let task' := applyUpdate body2 task in
          _ ← modify (on_tasks (insert taskId task'));
          mret (ok 200 "Task updated successfully" (TaskData task'))
    end).

(** [task.worker.toString()], a [TypeError] when the task has no worker. *)
Definition workerToString (task : Task.t) : M oid :=
  match Task.worker task with
  | Some w => mret w
  | None => throw TypeError
  end.

(** The GPS fix recorded when both coordinates are supplied. *)
Definition gpsFix (latitude longitude : option number) (now : date)
    : option Fix.t :=
  match latitude, longitude with
  | Some la, Some lo => Some (Fix.mk la lo now)
  | _, _ => None
  end.

Definition startTask (user : Principal) (taskId : oid)
    (latitude longitude : option number) (now : date)
    : Store -> Response * Store :=
  handler "Server error" (
    found ← gets (fun s => tasks s !! taskId);
    match found with
    | None => mret (reject 404 "Task not found")
    | Some task =>
        w ← workerToString task;
        if negb (bool_decide (w = id user)) then mret (reject 403 "Not authorized")
        else
          let task1 := Task.set_startedAt (Some now)
                         (Task.set_status in_progress task) in
          let task2 := match gpsFix latitude longitude now with
                       | Some fx => Task.set_startLocation (Some fx) task1
                       | None => task1
                       end in
          saved ← Task_save taskId task2;
          mret (ok 200 "Task started successfully" (TaskData saved))
    end).

Definition completeTask (user : Principal) (taskId : oid)
    (latitude longitude : option number) (now : date)
    : Store -> Response * Store :=
  handler "Server error" (
    found ← gets (fun s => tasks s !! taskId);
    match found with
    | None => mret (reject 404 "Task not found")
    | Some task =>
        w ← workerToString task;
        if negb (bool_decide (w = id user)) then mret (reject 403 "Not authorized")
        else if bool_decide (Task.status task = completed)
        then mret (reject 400 "Task already completed")
        else
          let task1 := Task.set_completedAt (Some now)
                         (Task.set_status completed task) in
          let task2 := match gpsFix latitude longitude now with
                       | Some fx => Task.set_endLocation (Some fx) task1
                       | None => task1
                       end in
          saved ← Task_save taskId task2;
          mret (ok 200 "Task completed successfully" (TaskData saved))
    end).

(** *** Media attachments *)

(** A value of [req.body] whose JavaScript type the code inspects. *)
Inductive jsval :=
| JUndefined
| JNull
| JBool (b : bool)
| JNum (n : Q)
| JStr (s : string).

(** An element of [req.files] as left by the upload middleware. *)
Module File.
Record t := mk { url : option string; cloudinaryId : option string }.
End File.

(** [task.images[imageType]] *)
Definition slot (imageType : string) (i : Images.t) : option (list Attachment.t) :=
  if String.eqb imageType "before" then Some (Images.before i)
  else if String.eqb imageType "after" then Some (Images.after i)
  else None.

Definition set_slot (imageType : string) (l : list Attachment.t) (i : Images.t)
    : Images.t :=
  if String.eqb imageType "before" then Images.mk l (Images.after i)
  else if String.eqb imageType "after" then Images.mk (Images.before i) l
  else i.

(** [const { isVisibleToClient = true } = req.body]: the default replaces
    [undefined] only. *)
Definition visibilityOrDefault (v : jsval) : jsval :=
  match v with JUndefined => JBool true | _ => v end.

(** [isVisibleToClient === "true" || isVisibleToClient === true] *)
Definition visibilityFlag (v : jsval) : bool :=
  match v with
  | JStr s => String.eqb s "true"
  | JBool b => b
  | _ => false
  end.

(** [files.map((file) => ({ ... }))]; [genId] stands for the ObjectId
    Mongoose gives the k-th pushed subdocument, and the schema default
    fills [mediaType].  (The revision of the controller that supports
    videos copies [resourceType], [format] and [duration] from the file
    as well and words its messages with "file(s)"; it computes the
    visibility flag by the same two lines.) *)
Fixpoint imageObjects (genId : nat -> oid) (k : nat) (uploader : oid)
    (flag : bool) (now : date) (files : list File.t) : list Attachment.t :=
  match files with
  | [] => []
  | file :: rest =>
      Attachment.mk (genId k) (File.url file) (File.cloudinaryId file)
                    (File.url file) (Some "image") None None now uploader flag
      :: imageObjects genId (S k) uploader flag now rest
  end.

Definition uploadTaskImages (user : Principal) (taskId : oid)
    (imageType : string) (isVisibleToClient : jsval) (files : list File.t)
    (genId : nat -> oid) (now : date) : Store -> Response * Store :=
  handler "Failed to upload images" (
    found ← gets (fun s => tasks s !! taskId);
    match found with
    | None => mret (reject 404 "Task not found")
    | Some task =>
        if bool_decide (role user = worker)
           && negb (bool_decide (Task.worker task = Some (id user)))
        then mret (reject 403 "Not authorized to upload images for this task")
        else
          let isVisibleToClient := visibilityOrDefault isVisibleToClient in
          match slot imageType (Task.images task) with
          | None => mret (reject 400 "Invalid image type. Must be: before or after")
          | Some imageArray =>
              if bool_decide (length files = 0)
              then mret (reject 400 "No images uploaded")
              else
                let objs := imageObjects genId 0 (id user)
                              (visibilityFlag isVisibleToClient) now files in
                let task1 := Task.set_images
                               (set_slot imageType (imageArray ++ objs)
                                         (Task.images task)) task in
                saved ← Task_save taskId task1;
                mret (ok 200 (pretty (length files) +:+ " image(s) uploaded successfully")
                         (ImagesData (Task.images saved)))
          end
    end).

(** [imageArray.forEach((img) => { if (imageIds.includes(...)) {...} })]
    with the running [updatedCount]. *)
Fixpoint bulkLoop (imageIds : list string) (isVisible : bool)
    (imageArray : list Attachment.t) (updatedCount : nat)
    : list Attachment.t * nat :=
  match imageArray with
  | [] => ([], updatedCount)
  | img :: rest =>
      if bool_decide (Attachment._id img ∈ imageIds) then
        let '(rest', n) := bulkLoop imageIds isVisible rest (S updatedCount) in
        (Attachment.set_isVisibleToClient isVisible img :: rest', n)
      else
        let '(rest', n) := bulkLoop imageIds isVisible rest updatedCount in
        (img :: rest', n)
  end.

Definition bulkUpdateImageVisibility (taskId : oid) (imageIds : list string)
    (imageType : string) (isVisible : bool) : Store -> Response * Store :=
  handler "Failed to update images visibility" (
    found ← gets (fun s => tasks s !! taskId);
    match found with
    | None => mret (reject 404 "Task not found")
    | Some task =>
        match slot imageType (Task.images task) with
        | None => mret (reject 400 "Invalid image type")
        | Some imageArray =>
            let '(imageArray', updatedCount) :=
              bulkLoop imageIds isVisible imageArray 0 in
            let task1 := Task.set_images
                           (set_slot imageType imageArray' (Task.images task))
                           task in
            _ ← Task_save taskId task1;
            mret (ok 200 (pretty updatedCount
                            +:+ " image(s) visibility updated successfully")
                     (CountData updatedCount isVisible))
        end
    end).

(** *** Client feedback *)

(** Result of [parseInt]. *)
Inductive parsed := NaN | Int (z : Z).

(** [req.file] of the feedback upload. *)
Module FeedbackFile.
Record t := mk { cloudinaryUrl : option string; cloudinaryId : option string }.
End FeedbackFile.

(** Truthiness of an optional string. *)
Definition truthy (o : option string) : bool :=
  match o with
  | Some s => negb (String.eqb s EmptyString)
  | None => false
  end.

(** Cast and validators of the modified path [feedback.rating]
    ([Number], [min: 1], [max: 5]) and cast of [feedback.imageNumber],
    as [save] applies them to the assigned object. *)
Definition castFeedback (rating : parsed) (comment : string)
    (imageNumber : option parsed) (image cloudinaryId : option string)
    (submittedAt : date) (isSatisfiedOnly : bool) : exn + Feedback.t :=
  match rating with
  | NaN => inl (ValidationError "feedback.rating")
  | Int r =>
      if negb ((1 <=? r)%Z && (r <=? 5)%Z)
      then inl (ValidationError "feedback.rating")
      else
        match imageNumber with
        | Some NaN => inl (ValidationError "feedback.imageNumber")
        | Some (Int n) =>
            inr (Feedback.mk r comment (Some n) image cloudinaryId
                             submittedAt isSatisfiedOnly)
        | None =>
            inr (Feedback.mk r comment None image cloudinaryId
                             submittedAt isSatisfiedOnly)
        end
  end.

Definition submitFeedback (user : Principal) (taskId : oid) (rating : parsed)
    (comment : option string) (imageNumber : option parsed)
    (file : option FeedbackFile.t) (now : date) : Store -> Response * Store :=
  handler "Failed to submit feedback" (
    found ← gets (fun s => tasks s !! taskId);
    match found with
    | None => mret (reject 404 "Task not found")
    | Some task =>
        if negb (bool_decide (Task.status task = completed))
        then mret (reject 400 "Can only provide feedback for completed tasks")
        else if bool_decide (role user = client)
                && negb (bool_decide (Task.client task = id user))
        then mret (reject 403 "Not authorized to feedback this task")
        else
          let comment :=
            if truthy comment then default EmptyString comment
            else EmptyString in
          let '(image, cloudinaryId) :=
            match file with
            | Some f =>
                if truthy (FeedbackFile.cloudinaryUrl f)
                then (FeedbackFile.cloudinaryUrl f, FeedbackFile.cloudinaryId f)
                else (None, None)
            | None => (None, None)
            end in
          feedbackData ← lift (castFeedback rating comment imageNumber image
                                            cloudinaryId now false);
          saved ← Task_save taskId (Task.set_feedback (Some feedbackData) task);
          mret (ok 200 "Feedback submitted successfully"
                   (FeedbackData (Task.feedback saved)))
    end).

Definition markSatisfied (user : Principal) (taskId : oid) (now : date)
    : Store -> Response * Store :=
  handler "Failed to mark task as satisfied" (
    found ← gets (fun s => tasks s !! taskId);
    match found with
    | None => mret (reject 404 "Task not found")
    | Some task =>
        if negb (bool_decide (Task.status task = completed))
        then mret (reject 400 "Can only mark satisfaction for completed tasks")
        else if bool_decide (role user = client)
                && negb (bool_decide (Task.client task = id user))
        then mret (reject 403 "Not authorized")
        else
          feedbackData ← lift (castFeedback (Int 5)
                                 "Client is satisfied with the work ✓" None
                                 None None now true);
          saved ← Task_save taskId (Task.set_feedback (Some feedbackData) task);
          mret (ok 200 "Task marked as satisfied"
                   (FeedbackData (Task.feedback saved)))
    end).

(** *** Task creation with the reference-media snapshot
    (the revision of taskController.js that carries [referenceImages]) *)

Module CreateReq.
Record t := mk {
  title : option string;
  description : option string;
  site : option oid;
  sections : option (list string);
  client : option oid;
  worker : option oid;
  scheduledDate : option date;
  materials : option (list Material.t)
}.
End CreateReq.

Definition isHexDigit (c : Ascii.ascii) : bool :=
  let n := Ascii.nat_of_ascii c in
  (Nat.leb 48 n && Nat.leb n 57) || (Nat.leb 65 n && Nat.leb n 70)
  || (Nat.leb 97 n && Nat.leb n 102).

(** [mongoose.Types.ObjectId.isValid] on a string: 24 hex digits, or any
    12 characters. *)
Definition ObjectId_isValid (s : string) : bool :=
  (Nat.eqb (String.length s) 24 && forallb isHexDigit (String.list_ascii_of_string s))
  || Nat.eqb (String.length s) 12.

(** The object literal copied from one reference image of [section]. *)
Definition snapshotImage (section : Section.t) (img : RefImage.t) : Snapshot.t :=
  Snapshot.mk
    (RefImage.url img) (RefImage.cloudinaryId img) (RefImage.caption img)
    (if truthy (RefImage.mediaType img) then default EmptyString (RefImage.mediaType img)
     else "image")
    (RefImage.format img) (RefImage.duration img) (RefImage.uploadedAt img)
    (match RefImage.qtn img with
     | Some q => if Qeq_bool q 0 then 1%Q else q
     | None => 1%Q
     end)
    (RefImage.description img) (Section._id section).

(** [validSections.forEach((section) => { ... referenceImages.push(...copied) })] *)
Fixpoint snapshotLoop (validSections : list Section.t)
    (referenceImages : list Snapshot.t) : list Snapshot.t :=
  match validSections with
  | [] => referenceImages
  | section :: rest =>
      if bool_decide (0 < length (Section.referenceImages section))%nat
      then snapshotLoop rest
             (referenceImages
                ++ map (snapshotImage section) (Section.referenceImages section))
      else snapshotLoop rest referenceImages
  end.

Definition invalidSections (sections : list string) (siteDoc : Site.t)
    : list string :=
  List.filter
    (fun sectionId =>
       negb (existsb (fun sec => bool_decide (Section._id sec = sectionId))
                     (Site.sections siteDoc)))
    sections.

Definition validSections (sections : list string) (siteDoc : Site.t)
    : list Section.t :=
  List.filter (fun sec => bool_decide (Section._id sec ∈ sections))
              (Site.sections siteDoc).

(** [Task.create({...})]: schema defaults, the required [scheduledDate],
    then [save] under the new id. *)
Definition Task_create (newId : oid) (site : oid) (worker : oid)
    (sections : list oid) (client : oid) (scheduledDate : option date)
    (materials : list Material.t) (referenceImages : list Snapshot.t)
    : M Task.t :=
  match scheduledDate with
  | None => throw (ValidationError "scheduledDate")
  | Some d =>
      Task_save newId
        (Task.mk site sections client (Some worker) pending d 0%Q None None
                 (Images.mk [] []) referenceImages materials
                 (Cost.mk 0 0 0)%Q None None None)
  end.

Definition createTask (req : CreateReq.t) (newId : oid)
    : Store -> Response * Store :=
  handler "Failed to create task" (
    match CreateReq.site req, CreateReq.sections req,
          CreateReq.client req, CreateReq.worker req with
    | Some site, Some sections, Some clientId, Some workerId =>
        if negb (truthy (CreateReq.title req))
           || negb (truthy (CreateReq.description req))
        then mret (reject 400 "Please provide all required fields")
        else
          found ← gets (fun s => sites s !! site);
          match found with
          | None => mret (reject 404 "Site not found")
          | Some siteDoc =>
              let invalid := invalidSections sections siteDoc in
              let valid := validSections sections siteDoc in
              if bool_decide (0 < length invalid)%nat
              then mret (reject 404 "One or more sections not found in this site")
              else if negb (ObjectId_isValid clientId)
              then mret (reject 400 "One or more sections do not belong to this site")
              else
                let referenceImages := snapshotLoop valid [] in
                task ← Task_create newId site workerId (map Section._id valid)
                         clientId (CreateReq.scheduledDate req)
                         (default [] (CreateReq.materials req)) referenceImages;
                populated ← gets (fun s => tasks s !! newId);
                mret (ok 201 "Task created successfully"
                         (TaskData (default task populated)))
          end
    | _, _, _, _ => mret (reject 400 "Please provide all required fields")
    end).

Definition getTask (user : Principal) (taskId : oid)
    : Store -> Response * Store :=
  handler "Server error" (
    baseTask ← gets (fun s => tasks s !! taskId);
    match baseTask with
    | None => mret (reject 404 "Task not found")
    | Some task =>
        if negb (bool_decide (role user = admin))
           && negb (bool_decide (Task.worker task = Some (id user)))
        then mret (reject 403 "Not authorized to view this task")
        else mret (ok 200 EmptyString (TaskData task))
    end).

(** The lookup the earlier revision of [getTask] made on every read,
    from the live site document. *)
Fixpoint liveReferenceImages (sectionIds : list oid) (site : Site.t)
    : list RefImage.t :=
  match sectionIds with
  | [] => []
  | sectionId :: rest =>
      match Site.id sectionId (Site.sections site) with
      | Some section =>
          Section.referenceImages section ++ liveReferenceImages rest site
      | None => liveReferenceImages rest site
      end
  end.

(** *** controllers/deleteImageController.js, section reference images *)

(** [findIndex] then [splice(index, 1)]: drop the first match. *)
Fixpoint spliceFirst (imageId : string) (l : list RefImage.t)
    : option (list RefImage.t) :=
  match l with
  | [] => None
  | img :: rest =>
      if bool_decide (RefImage._id img = imageId) then Some rest
      else option_map (cons img) (spliceFirst imageId rest)
  end.

Definition deleteSectionImage (siteId sectionId imageId : string)
    : Store -> (bool * string) * Store :=
  fun s =>
    match sites s !! siteId with
    | None => ((false, "Site not found"), s)
    | Some site =>
        match Site.id sectionId (Site.sections site) with
        | None => ((false, "Section not found"), s)
        | Some section =>
            match spliceFirst imageId (Section.referenceImages section) with
            | None => ((false, "Reference image not found"), s)
            | Some kept =>
                let site' := Site.set_sections
                               (Site.update_id sectionId
                                  (Section.set_referenceImages kept)
                                  (Site.sections site)) site in
                ((true, "Section reference image deleted"),
                 on_sites (insert siteId site') s)
            end
        end
    end.

(** ** A small store used to run the controllers *)
Module Sample.

Definition imgA : RefImage.t :=
  RefImage.mk "ra1" (Some "https://cdn/a1.jpg") (Some "sites/a1") None None
              None None (Some 1000%Z) (Some 2%Q) None.
Definition imgB : RefImage.t :=
  RefImage.mk "rb1" (Some "https://cdn/b1.mp4") (Some "sites/b1") None
              (Some "video") (Some "mp4") (Some 12%Q) (Some 2000%Z) None None.

Definition secA : Section.t := Section.mk "secA" "Front lawn" [imgA] None None None.
Definition secB : Section.t := Section.mk "secB" "Back yard" [imgB] None None None.

Definition site1 : Site.t := Site.mk "client000001" [secA; secB] 5 2 None.

Definition seed : Inventory.t := Inventory.mk "Grass seed" 10 2 true.
Definition fertilizer : Inventory.t := Inventory.mk "Fertilizer" 2 1 true.

Definition photo1 : Attachment.t :=
  Attachment.mk "img1" (Some "https://cdn/p1.jpg") (Some "tasks/p1")
                (Some "https://cdn/p1.jpg") (Some "image") None None 500
                "worker1" false.
Definition photo2 : Attachment.t :=
  Attachment.mk "img2" (Some "https://cdn/p2.jpg") (Some "tasks/p2")
                (Some "https://cdn/p2.jpg") (Some "image") None None 600
                "worker1" false.

(** A started task of worker1 on both sections. *)
Definition started : Task.t :=
  Task.mk "site1" ["secA"; "secB"] "client000001" (Some "worker1")
          in_progress 0 0 None None (Images.mk [photo1; photo2] []) []
          [] (Cost.mk 0 0 0) (Some 3600000%Z) None None.

(** A task nobody is assigned to, with two materials. *)
Definition unassigned : Task.t :=
  Task.mk "site1" ["secA"] "client000001" None pending 0 0 None None
          (Images.mk [] []) []
          [Material.mk (Some "seed") "Grass seed" 4 "kg" false;
           Material.mk (Some "fert") "Fertilizer" 5 "kg" false]
          (Cost.mk 0 0 0) None None None.

(** A task of worker1 that was completed and then rejected by review. *)
Definition turnedDown : Task.t :=
  Task.mk "site1" ["secB"] "client000001" (Some "worker1") rejected 0 2
          None None (Images.mk [] []) [] [] (Cost.mk 0 0 0)
          (Some 100%Z) (Some 7200100%Z) None.

(** A completed task that already carries a two-star feedback. *)
Definition rated : Task.t :=
  Task.mk "site1" ["secA"] "client000001" (Some "worker1") completed 0 1
          None None (Images.mk [] []) [] [] (Cost.mk 0 0 0)
          (Some 0%Z) (Some 3600000%Z)
          (Some (Feedback.mk 2 "Edges were missed" None
                             (Some "https://cdn/f1.jpg") (Some "feedback/f1")
                             4000000 false)).

Definition store : Store :=
  mkStore
    (<["task1" := started]>
       (<["task2" := unassigned]>
          (<["task3" := turnedDown]> (<["task4" := rated]> ∅))))
    (<["site1" := site1]> ∅)
    (<["client000001" := Client.mk 5 2]> ∅)
    (<["worker1" := User.mk worker 7]> (<["admin1" := User.mk admin 0]> ∅))
    (<["seed" := seed]> (<["fert" := fertilizer]> ∅)).

(** A creation request on site1 for the given section ids. *)
Definition request (sections : list string) : CreateReq.t :=
  CreateReq.mk (Some "Mow and trim") (Some "Weekly visit") (Some "site1")
               (Some sections) (Some "client000001") (Some "worker1")
               (Some 86400000%Z) None.

Definition worker1 : Principal := mkPrincipal "worker1" worker.
Definition admin1 : Principal := mkPrincipal "admin1" admin.
Definition client1 : Principal := mkPrincipal "client000001" client.

End Sample.

(** ** Documents written by the worker transitions *)


(** The document [completeTask] hands to [save]. *)
Definition completedDoc (task : Task.t) (latitude longitude : option number)
    (now : date) : Task.t :=
  let task1 := Task.set_completedAt (Some now) (Task.set_status completed task) in
  match gpsFix latitude longitude now with
  | Some fx => Task.set_endLocation (Some fx) task1
  | None => task1
  end.

(** Two stores that differ in the inventory collection at most. *)
Definition same_documents (s s' : Store) : Prop :=
  tasks s' = tasks s /\ sites s' = sites s
  /\ clients s' = clients s /\ users s' = users s.

Arguments castFeedback : simpl never.

(** ** Bulk visibility, said without the loop *)



(** ** The derived fields of a task, said without the hook *)

(** Elapsed time between two dates, in hours. *)
Definition hours (startedAt completedAt : date) : Q :=
  (inject_Z (completedAt - startedAt) / 3600000)%Q.

(** [r] is [x] rounded to two decimals: a whole number of hundredths,
    nearest to [x], a tie going up. *)
Definition rounded2 (x r : Q) : Prop :=
  (exists k : Z, r == inject_Z k / 100)%Q
  /\ (x - (1 # 200) < r)%Q /\ (r <= x + (1 # 200))%Q.

(** What every saved task is to satisfy. *)
Definition derived_ok (x : Task.t) : Prop :=
  (Cost.total (Task.cost x)
   == Cost.labor (Task.cost x) + Cost.materials (Task.cost x))%Q
  /\ (forall s c, Task.startedAt x = Some s -> Task.completedAt x = Some c ->
      rounded2 (hours s c) (Task.actualDuration x)).

(** ** The snapshot, said without the loop *)



(** ** The section loop, said as a fold *)

(** The site document after the last-task summary was written for the
    given section ids, one after the other; ids the site does not have
    are skipped. *)
Definition stampSections (st : TaskStatus) (taskId : oid) (now : date)
    (ids : list oid) (doc : Site.t) : Site.t :=
  fold_left
    (fun d sectionId =>
       default d (Site.updateSectionLastTask sectionId st taskId now d))
    ids doc.

(** ** The rest of controllers/taskController.js *)

(** The [try]/[catch] of a controller whose answer is read together
    with a second component ([dflt] when the body threw). *)
Definition handlerWith {A} (failure : string) (dflt : A)
    (body : M (Response * A)) (s : Store) : (Response * A) * Store :=
  match body s with
  | (inr r, s') => (r, s')
  | (inl e, s') => ((mkResponse 500 false failure (Some e) NoData, dflt), s')
  end.

(** [imageArray.findIndex((img) => img._id.toString() === imageId)];
    [None] stands for -1. *)
Fixpoint findIndex (imageId : string) (l : list Attachment.t) : option nat :=
  match l with
  | [] => None
  | img :: rest =>
      if bool_decide (Attachment._id img = imageId) then Some 0%nat
      else S <$> findIndex imageId rest
  end.

(** [img.isVisibleToClient = !img.isVisibleToClient] *)
Definition flipVisibility (a : Attachment.t) : Attachment.t :=
  Attachment.set_isVisibleToClient (negb (Attachment.isVisibleToClient a)) a.

(** The second component is the payload [{ imageId, isVisibleToClient }]
    of the success response. *)
Definition toggleImageVisibility (taskId : oid) (imageId : string)
    (imageType : string) : Store -> (Response * option (string * bool)) * Store :=
  handlerWith "Failed to update image visibility" None (
    found ← gets (fun s => tasks s !! taskId);
    match found with
    | None => mret (reject 404 "Task not found", None)
    | Some task =>
        match slot imageType (Task.images task) with
        | None => mret (reject 400 "Invalid image type", None)
        | Some imageArray =>
            match findIndex imageId imageArray with
            | None => mret (reject 404 "Image not found", None)
            | Some imageIndex =>
                let imageArray' := alter flipVisibility imageIndex imageArray in
                let task1 := Task.set_images
                               (set_slot imageType imageArray' (Task.images task))
                               task in
                saved ← Task_save taskId task1;
                mret (ok 200 "Image visibility updated successfully" NoData,
                      (fun a => (imageId, Attachment.isVisibleToClient a))
                        <$> (imageArray' !! imageIndex))
            end
        end
    end).

(** [imageArray.splice(imageIndex, 1)] *)
Definition splice1 {A} (i : nat) (l : list A) : list A := take i l ++ drop (S i) l.

(** The second component lists the storage ids whose deletion was asked
    of the media host, in order; a failure of the host is caught and
    logged by the controller and changes nothing else. *)
Definition deleteTaskImage (user : Principal) (taskId : oid) (imageId : string)
    (imageType : string) : Store -> (Response * list string) * Store :=
  handlerWith "Failed to delete image" [] (
    found ← gets (fun s => tasks s !! taskId);
    match found with
    | None => mret (reject 404 "Task not found", [])
    | Some task =>
        if bool_decide (role user = worker)
           && negb (bool_decide (Task.worker task = Some (id user)))
        then mret (reject 403 "Not authorized", [])
        else
          match slot imageType (Task.images task) with
          | None => mret (reject 400 "Invalid image type", [])
          | Some imageArray =>
              match findIndex imageId imageArray with
              | None => mret (reject 404 "Image not found", [])
              | Some imageIndex =>
                  let asked :=
                    match imageArray !! imageIndex with
                    | Some image =>
                        if truthy (Attachment.cloudinaryId image)
                        then [default EmptyString (Attachment.cloudinaryId image)]
                        else []
                    | None => []
                    end in
                  let task1 := Task.set_images
                                 (set_slot imageType (splice1 imageIndex imageArray)
                                           (Task.images task))
                                 task in
                  _ ← Task_save taskId task1;
                  mret (ok 200 "Image deleted successfully" NoData, asked)
              end
          end
    end).

(** [notification] is what awaiting [notifyTaskAssignment] does after
    the task was saved: [None] when it resolves, the thrown value when it
    rejects. *)
Definition assignTask (taskId : oid) (workerId : oid) (notification : option exn)
    : Store -> Response * Store :=
  handler "Failed to assign task" (
    found ← gets (fun s => tasks s !! taskId);
    match found with
    | None => mret (reject 404 "Task not found")
    | Some task =>
        found_user ← gets (fun s => users s !! workerId);
        match found_user with
        | None => mret (reject 404 "Worker not found")
        | Some u =>
            if negb (bool_decide (User.role u = worker))
            then mret (reject 404 "Worker not found")
            else
              saved ← Task_save taskId
                        (Task.set_status assigned
                           (Task.set_worker (Some workerId) task));
              _ ← match notification with
                  | Some e => throw e
                  | None => mret tt
                  end;
              mret (ok 200 "Task assigned successfully" (TaskData saved))
        end
    end).

Definition deleteTask (taskId : oid) : Store -> Response * Store :=
  handler "Server error" (
    found ← gets (fun s => tasks s !! taskId);
    match found with
    | None => mret (reject 404 "Task not found")
    | Some task =>
        _ ← modify (on_tasks (delete taskId));
        mret (ok 200 "Task deleted successfully" NoData)
    end).

(** *** Task creation in the revision without the snapshot *)

Definition Client_incTotal (c : Client.t) : Client.t :=
  Client.mk (Client.totalTasks c + 1)%Z (Client.completedTasks c).

Definition Site_incTotal (x : Site.t) : Site.t :=
  Site.mk (Site.client x) (Site.sections x) (Site.totalTasks x + 1)%Z
          (Site.completedTasks x) (Site.lastVisit x).

(** [taskData.sections.filter((sectionId) => !site.sections.id(sectionId))] *)
Definition invalidSectionsById (sections : list string) (site : Site.t)
    : list string :=
  List.filter
    (fun sectionId =>
       match Site.id sectionId (Site.sections site) with
       | Some _ => false
       | None => true
       end)
    sections.

(** [createTask] of the revision that stores [req.body] as it is, for a
    body made of the keys of [CreateReq.t].  [validation] is what the
    casts and validators of [Task.create] say of the title, the
    description and the ids ([None]: accepted); the required
    [scheduledDate] is checked here.  The branch copied from the site is
    left out with the task's branch. *)
Definition createTaskLegacy (validation : option exn) (req : CreateReq.t)
    (newId : oid) : Store -> Response * Store :=
  handler "Failed to create task" (
    match CreateReq.site req with
    | None => mret (reject 400 "Site is required")
    | Some siteId =>
        match CreateReq.sections req with
        | None | Some [] => mret (reject 400 "At least one section is required")
        | Some sections =>
            found ← gets (fun s => sites s !! siteId);
            match found with
            | None => mret (reject 404 "Site not found")
            | Some site =>
                if bool_decide (0 < length (invalidSectionsById sections site))%nat
                then mret (reject 404 "One or more sections not found in this site")
                else
                  let clientId := default (Site.client site) (CreateReq.client req) in
                  if match CreateReq.client req with
                     | Some c => negb (ObjectId_isValid c)
                     | None => false
                     end
                  then mret (reject 400 "Invalid client ID")
                  else
                    _ ← match validation with
                        | Some e => throw e
                        | None => mret tt
                        end;
                    task ← match CreateReq.scheduledDate req with
                           | None => throw (ValidationError "scheduledDate")
                           | Some d =>
                               Task_save newId
                                 (Task.mk siteId sections clientId
                                    (CreateReq.worker req) pending d 0%Q None None
                                    (Images.mk [] []) []
                                    (default [] (CreateReq.materials req))
                                    (Cost.mk 0 0 0)%Q None None None)
                           end;
                    populated ← gets (fun s => tasks s !! newId);
                    _ ← modify (on_clients (alter Client_incTotal (Task.client task)));
                    _ ← modify (on_sites (alter Site_incTotal (Task.site task)));
                    mret (ok 201 "Task created successfully"
                             (TaskData (default task populated)))
            end
        end
    end).

(** *** controllers/deleteImageController.js, feedback image *)

Definition clearFeedbackImage (f : Feedback.t) : Feedback.t :=
  Feedback.mk (Feedback.rating f) (Feedback.comment f) (Feedback.imageNumber f)
              None None (Feedback.submittedAt f) (Feedback.isSatisfiedOnly f).

Definition deleteFeedbackImage (taskId : string)
    : Store -> (bool * string) * Store :=
  fun s =>
    match tasks s !! taskId with
    | None => ((false, "Task not found"), s)
    | Some task =>
        match Task.feedback task with
        | None => ((false, "No feedback image found"), s)
        | Some f =>
            if negb (truthy (Feedback.image f))
            then ((false, "No feedback image found"), s)
            else
              let task1 := Task.set_feedback (Some (clearFeedbackImage f)) task in
              ((true, "Feedback image deleted"),
               on_tasks (insert taskId (Task.pre_save task1)) s)
        end
    end.

(** ** middleware/auth.js and routes/taskRoutes.js *)

Definition roleName (r : Role) : string :=
  match r with
  | admin => "admin"
  | worker => "worker"
  | client => "client"
  end.

(** [authorize(...roles)]: [None] is the call of [next()]. *)
Definition authorize (roles : list Role) (user : option Principal)
    : option Response :=
  match user with
  | None => Some (reject 401 "Not authenticated")
  | Some u =>
      if bool_decide (role u ∈ roles) then None
      else Some (reject 403 ("User role '" +:+ roleName (role u)
                               +:+ "' is not authorized to access this route"))
  end.

(** A route [authorize(...roles), controller] behind [router.use(protect)],
    which has set [req.user]; [deny] wraps the refusal into the
    controller's result. *)
Definition guarded {R} (roles : list Role) (user : Principal)
    (deny : Response -> R) (controller : Store -> R * Store)
    : Store -> R * Store :=
  fun s =>
    match authorize roles (Some user) with
    | Some refusal => (deny refusal, s)
    | None => controller s
    end.

(** [router.post('/:id/assign', authorize('admin'), assignTask)] *)
Definition route_assign (user : Principal) (taskId workerId : oid)
    (notification : option exn) : Store -> Response * Store :=
  guarded [admin] user (fun r => r) (assignTask taskId workerId notification).

(** [router.route('/:id').delete(authorize('admin'), deleteTask)] *)
Definition route_delete (user : Principal) (taskId : oid)
    : Store -> Response * Store :=
  guarded [admin] user (fun r => r) (deleteTask taskId).

(** [router.route('/').post(authorize('admin'), createTask)] *)
Definition route_create (user : Principal) (req : CreateReq.t) (newId : oid)
    : Store -> Response * Store :=
  guarded [admin] user (fun r => r) (createTask req newId).

(** [router.put('/:id/images/:imageId/visibility', authorize('admin'), ...)] *)
Definition route_toggle (user : Principal) (taskId : oid) (imageId imageType : string)
    : Store -> (Response * option (string * bool)) * Store :=
  guarded [admin] user (fun r => (r, None))
          (toggleImageVisibility taskId imageId imageType).

(** [router.put('/:id/images/bulk-visibility', authorize('admin'), ...)] *)
Definition route_bulk (user : Principal) (taskId : oid) (imageIds : list string)
    (imageType : string) (isVisible : bool) : Store -> Response * Store :=
  guarded [admin] user (fun r => r)
          (bulkUpdateImageVisibility taskId imageIds imageType isVisible).

(** [router.delete('/:id/images/:imageId', authorize('admin', 'worker'), ...)] *)
Definition route_deleteImage (user : Principal) (taskId : oid)
    (imageId imageType : string) : Store -> (Response * list string) * Store :=
  guarded [admin; worker] user (fun r => (r, []))
          (deleteTaskImage user taskId imageId imageType).

(** ** The rest of models/Inventory.js and models/Site.js *)

(** inventorySchema.methods.restock, on the document in memory.  The
    method also stamps [lastRestocked], a field nothing here reads and
    the model does not keep. *)
Definition Inventory_restockDoc (amount : number) (i : Inventory.t)
    : exn + Inventory.t :=
  Inventory.validate
    (Inventory.set_current (Inventory.current i + amount)%Q i).

Definition Inventory_restock (itemId : oid) (doc : Inventory.t) (amount : number)
    : M Inventory.t :=
  doc' ← lift (Inventory_restockDoc amount doc);
  _ ← modify (on_inventory (insert itemId doc'));
  mret doc'.

(** siteSchema.methods.deleteSection, on the document in memory:
    [this.sections.pull(sectionId)] drops every section with that id. *)
Definition Site_deleteSection (sectionId : oid) (x : Site.t) : Site.t :=
  Site.set_sections
    (List.filter (fun sec => negb (bool_decide (Section._id sec = sectionId)))
                 (Site.sections x))
    x.

(** ** middleware/upload.js *)

(** [RegExp.prototype.test] for a pattern that is a plain word: the word
    occurs somewhere in the string. *)
Fixpoint occurs (word s : string) : bool :=
  String.prefix word s
  || match s with
     | EmptyString => false
     | String _ rest => occurs word rest
     end.

(** [/jpeg|jpg|png|gif|webp/.test] and [/mp4|mov|avi|mkv|webm/.test] *)
Definition allowedImageTypes (s : string) : bool :=
  existsb (fun w => occurs w s) ["jpeg"; "jpg"; "png"; "gif"; "webp"].
Definition allowedVideoTypes (s : string) : bool :=
  existsb (fun w => occurs w s) ["mp4"; "mov"; "avi"; "mkv"; "webm"].

(** The [fileFilter] of multer; [toLowerCase] is the built-in of the
    JavaScript engine.  [inr tt] accepts the file. *)
Definition fileFilter (toLowerCase : string -> string)
    (originalname mimetype : string) : exn + unit :=
  let extname := toLowerCase originalname in
  let isImage := allowedImageTypes extname && String.prefix "image/" mimetype in
  let isVideo := allowedVideoTypes extname && String.prefix "video/" mimetype in
  if isImage || isVideo then inr tt
  else inl (Error "Only image and video files are allowed!").

(** [resource_type] chosen by [uploadToCloudinary]. *)
Definition resourceType (mimetype : string) : string :=
  if String.prefix "video/" mimetype then "video" else "image".

(** Whether [uploadToCloudinary] asks for the image transformations. *)
Definition transformed (mimetype : string) : bool :=
  negb (String.prefix "video/" mimetype).

(** An unassigned task whose one material is in stock, and the sample
    store holding it as task5. *)
Definition seeding : Task.t :=
  Task.mk "site1" ["secA"] "client000001" None pending 0 0 None None
          (Images.mk [] []) []
          [Material.mk (Some "seed") "Grass seed" 4 "kg" false]
          (Cost.mk 0 0 0) None None None.

Definition storeWithSeeding : Store :=
  on_tasks (insert "task5" seeding) Sample.store.

(** * Properties *)

(** ** Numbers *)

Lemma Qltb_lt x y : Qltb x y = true <-> (x < y)%Q.
Proof.
  unfold Qltb. rewrite negb_true_iff. split.
  - intros H. apply Qnot_le_lt. intros Hle.
    apply Qle_bool_iff in Hle. congruence.
  - intros H. destruct (Qle_bool y x) eqn:E; [|reflexivity].
    apply Qle_bool_iff in E. exfalso. apply (Qlt_not_le _ _ H E).
Qed.

Lemma Qltb_ge x y : Qltb x y = false <-> (y <= x)%Q.
Proof.
  unfold Qltb. rewrite negb_false_iff. apply Qle_bool_iff.
Qed.

(** ** Inventory ledger *)

Lemma deduct_enough (i : Inventory.t) (q : number) :
  (q <= Inventory.current i)%Q ->
  Inventory.deduct q i
  = inr (Inventory.set_current (Inventory.current i - q)%Q i).
Proof.
  intros Hle. unfold Inventory.deduct.
  rewrite (proj2 (Qltb_ge _ _) Hle).
  unfold Inventory.validate. cbn.
  assert (Qle_bool 0 (Inventory.current i - q) = true) as ->; [|reflexivity].
  apply Qle_bool_iff. lra.
Qed.

Lemma Inventory_deduct_short (s : Store) (itemId : oid) (doc : Inventory.t)
    (q : number) :
  (Inventory.current doc < q)%Q ->
  Inventory_deduct itemId doc q s = (inl (Error "Insufficient stock"), s).
Proof.
  intros Hlt. unfold Inventory_deduct, mbind, M_bind, lift, Inventory.deduct.
  rewrite (proj2 (Qltb_lt _ _) Hlt). reflexivity.
Qed.

(** C5. Deducting [q] from an item holding [c] succeeds and leaves
    [current = c - q] in the collection when [q <= c]; when [q > c] it
    throws "Insufficient stock" and the store is left as it was. *)
Theorem deduct_spec (s : Store) (itemId : oid) (doc : Inventory.t) (q : number) :
  ((q <= Inventory.current doc)%Q ->
   exists doc',
     Inventory_deduct itemId doc q s
     = (inr doc', on_inventory (insert itemId doc') s)
     /\ Inventory.current doc' = (Inventory.current doc - q)%Q
     /\ inventory (on_inventory (insert itemId doc') s) !! itemId = Some doc')
  /\ ((Inventory.current doc < q)%Q ->
      Inventory_deduct itemId doc q s = (inl (Error "Insufficient stock"), s)).
Proof.
  split.
  - intros Hle. eexists. unfold Inventory_deduct, mbind, M_bind, lift.
    rewrite (deduct_enough _ _ Hle). cbn.
    split; [reflexivity|]. split; [reflexivity|]. apply lookup_insert_eq.
  - apply Inventory_deduct_short.
Qed.

Lemma deduct_spec_witness :
  (exists doc',
     Inventory_deduct "seed" Sample.seed 4 Sample.store
     = (inr doc', on_inventory (insert "seed" doc') Sample.store)
     /\ Inventory.current doc' = (Inventory.current Sample.seed - 4)%Q
     /\ inventory (on_inventory (insert "seed" doc') Sample.store) !! "seed"
        = Some doc')
  /\ Inventory_deduct "fert" Sample.fertilizer 5 Sample.store
     = (inl (Error "Insufficient stock"), Sample.store).
Proof.
  split.
  - apply (deduct_spec Sample.store "seed" Sample.seed 4).
    unfold Qle; simpl; lia.
  - apply (deduct_spec Sample.store "fert" Sample.fertilizer 5).
    unfold Qlt; simpl; lia.
Defined.

(** ** Worker transitions *)

Ltac run_handler :=
  unfold workerToString, Task_save;
  unfold handler, mbind, M_bind, mret, M_ret, gets, modify, lift, throw; cbn.

Ltac pre_save_field :=
  match goal with
  | |- context [Task.pre_save ?x] =>
      unfold Task.pre_save;
      destruct (Task.startedAt x) eqn:?;
      [destruct (Task.completedAt x) eqn:?|];
      cbn; congruence
  end.

Lemma pre_save_status (x : Task.t) : Task.status (Task.pre_save x) = Task.status x.
Proof. pre_save_field. Qed.

Lemma pre_save_startedAt (x : Task.t) :
  Task.startedAt (Task.pre_save x) = Task.startedAt x.
Proof. pre_save_field. Qed.

Lemma pre_save_completedAt (x : Task.t) :
  Task.completedAt (Task.pre_save x) = Task.completedAt x.
Proof. pre_save_field. Qed.


Lemma pre_save_feedback (x : Task.t) :
  Task.feedback (Task.pre_save x) = Task.feedback x.
Proof. pre_save_field. Qed.

Lemma pre_save_images (x : Task.t) :
  Task.images (Task.pre_save x) = Task.images x.
Proof. pre_save_field. Qed.


Lemma completeTask_run (s : Store) (user : Principal) (taskId : oid)
    (task : Task.t) (la lo : option number) (now : date) :
  tasks s !! taskId = Some task ->
  Task.worker task = Some (id user) ->
  Task.status task <> completed ->
  completeTask user taskId la lo now s
  = (ok 200 "Task completed successfully"
        (TaskData (Task.pre_save (completedDoc task la lo now))),
     on_tasks (insert taskId (Task.pre_save (completedDoc task la lo now))) s).
Proof.
  intros Hfind Hworker Hstatus. unfold completeTask. run_handler.
  rewrite Hfind, Hworker. cbn.
  rewrite bool_decide_eq_true_2 by reflexivity. cbn.
  rewrite bool_decide_eq_false_2 by assumption.
  unfold completedDoc. destruct (gpsFix la lo now); reflexivity.
Qed.

Lemma completeTask_again (s : Store) (user : Principal) (taskId : oid)
    (task : Task.t) (la lo : option number) (now : date) :
  tasks s !! taskId = Some task ->
  Task.worker task = Some (id user) ->
  Task.status task = completed ->
  completeTask user taskId la lo now s
  = (reject 400 "Task already completed", s).
Proof.
  intros Hfind Hworker Hstatus. unfold completeTask. run_handler.
  rewrite Hfind, Hworker. cbn.
  rewrite bool_decide_eq_true_2 by reflexivity. cbn.
  rewrite bool_decide_eq_true_2 by assumption. reflexivity.
Qed.

Lemma completedDoc_status task la lo now :
  Task.status (completedDoc task la lo now) = completed.
Proof. unfold completedDoc. destruct (gpsFix la lo now); reflexivity. Qed.

Lemma completedDoc_worker task la lo now :
  Task.worker (completedDoc task la lo now) = Task.worker task.
Proof. unfold completedDoc. destruct (gpsFix la lo now); reflexivity. Qed.

Lemma completedDoc_completedAt task la lo now :
  Task.completedAt (completedDoc task la lo now) = Some now.
Proof. unfold completedDoc. destruct (gpsFix la lo now); reflexivity. Qed.

Lemma pre_save_worker (x : Task.t) : Task.worker (Task.pre_save x) = Task.worker x.
Proof. pre_save_field. Qed.

(** C1. The dedicated complete operation, called by the assigned worker
    on a task that is not yet completed, succeeds, sets the status to
    completed and records [completedAt]; it leaves the clients, users
    and sites collections exactly as they were, so no [completedTasks]
    counter moves, [Site.lastVisit] is not set and no section receives
    the last-task summary. *)
Theorem completeTask_skips_cascade (s : Store) (user : Principal)
    (taskId : oid) (task : Task.t) (la lo : option number) (now : date) :
  tasks s !! taskId = Some task ->
  Task.worker task = Some (id user) ->
  Task.status task <> completed ->
  exists task' s',
    completeTask user taskId la lo now s
    = (ok 200 "Task completed successfully" (TaskData task'), s')
    /\ tasks s' !! taskId = Some task'
    /\ Task.status task' = completed
    /\ Task.completedAt task' = Some now
    /\ clients s' = clients s
    /\ users s' = users s
    /\ sites s' = sites s.
Proof.
  intros Hfind Hworker Hstatus.
  eexists _, _. split; [apply completeTask_run; eassumption|].
  split; [apply lookup_insert_eq|].
  rewrite pre_save_status, pre_save_completedAt.
  rewrite completedDoc_status, completedDoc_completedAt.
  repeat split.
Qed.

Lemma completeTask_skips_cascade_witness :
  exists task' s',
    completeTask Sample.worker1 "task1" None None 7200000 Sample.store
    = (ok 200 "Task completed successfully" (TaskData task'), s')
    /\ tasks s' !! "task1" = Some task'
    /\ Task.status task' = completed
    /\ Task.completedAt task' = Some 7200000%Z
    /\ clients s' = clients Sample.store
    /\ users s' = users Sample.store
    /\ sites s' = sites Sample.store.
Proof.
  apply (completeTask_skips_cascade Sample.store Sample.worker1 "task1"
           Sample.started None None 7200000).
  - reflexivity.
  - reflexivity.
  - discriminate.
Defined.

(** The generic update, given the same task and caller with
    [{ status: "completed" }], does run the cascade: the three counters
    rise by one, [lastVisit] is set and both sections are stamped. *)
Example updateTask_cascade_on_sample :
  let s' := snd (updateTask Sample.worker1 "task1"
                   (Body.set_status (Some completed) Body.empty) 7200000
                   Sample.store) in
  (Client.completedTasks <$> clients s' !! "client000001") = Some 3%Z
  /\ (User.completedTasks <$> users s' !! "worker1") = Some 8%Z
  /\ (Site.completedTasks <$> sites s' !! "site1") = Some 3%Z
  /\ (Site.lastVisit <$> sites s' !! "site1") = Some (Some 7200000%Z)
  /\ (map Section.lastTaskStatus <$> (Site.sections <$> sites s' !! "site1"))
     = Some [Some completed; Some completed]
  /\ (map Section.lastTaskId <$> (Site.sections <$> sites s' !! "site1"))
     = Some [Some "task1"; Some "task1"].
Proof. vm_compute. repeat split. Qed.

(** C4. Two complete calls in a row by the assigned worker: the first
    succeeds, the second is rejected with status 400 "Task already
    completed" and leaves the whole store (the task and every counter
    of sites, clients and users) as the first call left it. *)
Theorem complete_twice (s : Store) (user : Principal) (taskId : oid)
    (task : Task.t) (la lo la' lo' : option number) (now now' : date) :
  tasks s !! taskId = Some task ->
  Task.worker task = Some (id user) ->
  Task.status task <> completed ->
  let first := completeTask user taskId la lo now s in
  let second := completeTask user taskId la' lo' now' (snd first) in
  success (fst first) = true
  /\ code (fst first) = 200%Z
  /\ fst second = reject 400 "Task already completed"
  /\ snd second = snd first
  /\ tasks (snd second) !! taskId = tasks (snd first) !! taskId
  /\ sites (snd second) = sites s
  /\ clients (snd second) = clients s
  /\ users (snd second) = users s.
Proof.
  intros Hfind Hworker Hstatus first second.
  subst first second.
  rewrite (completeTask_run s user taskId task la lo now Hfind Hworker Hstatus).
  cbn [fst snd].
  rewrite (completeTask_again _ user taskId
             (Task.pre_save (completedDoc task la lo now)) la' lo' now').
  - cbn. repeat split.
  - cbn. apply lookup_insert_eq.
  - rewrite pre_save_worker, completedDoc_worker. assumption.
  - rewrite pre_save_status. apply completedDoc_status.
Qed.

Lemma complete_twice_witness :
  let first := completeTask Sample.worker1 "task1" None None 7200000
                 Sample.store in
  let second := completeTask Sample.worker1 "task1" None None 7200500
                  (snd first) in
  success (fst first) = true
  /\ code (fst first) = 200%Z
  /\ fst second = reject 400 "Task already completed"
  /\ snd second = snd first
  /\ tasks (snd second) !! "task1" = tasks (snd first) !! "task1"
  /\ sites (snd second) = sites Sample.store
  /\ clients (snd second) = clients Sample.store
  /\ users (snd second) = users Sample.store.
Proof.
  apply (complete_twice Sample.store Sample.worker1 "task1" Sample.started
           None None None None 7200000 7200500).
  - reflexivity.
  - reflexivity.
  - discriminate.
Defined.



(** ** First assignment and the material loop *)

Lemma forEach_app {A} (f : A -> M unit) (l1 l2 : list A) (s : Store) :
  forEach f (l1 ++ l2) s
  = match forEach f l1 s with
    | (inr _, s1) => forEach f l2 s1
    | (inl e, s1) => (inl e, s1)
    end.
Proof.
  revert s. induction l1 as [|x l1 IH]; intros s; cbn.
  - reflexivity.
  - unfold mbind, M_bind. destruct (f x s) as [[e|[]] s1]; [reflexivity|].
    apply IH.
Qed.

Lemma deductMaterial_short (m : Material.t) (itemId : oid)
    (doc : Inventory.t) (s : Store) :
  Material.item m = Some itemId ->
  inventory s !! itemId = Some doc ->
  (Inventory.current doc < Material.quantity m)%Q ->
  deductMaterial m s = (inl (Error "Insufficient stock"), s).
Proof.
  intros Hitem Hdoc Hlt. unfold deductMaterial. rewrite Hitem.
  unfold mbind at 1, M_bind at 1, gets. rewrite Hdoc.
  unfold mbind, M_bind.
  rewrite (Inventory_deduct_short s itemId doc (Material.quantity m) Hlt).
  reflexivity.
Qed.

Lemma deductMaterial_enough (m : Material.t) (itemId : oid)
    (doc : Inventory.t) (s : Store) :
  Material.item m = Some itemId ->
  inventory s !! itemId = Some doc ->
  (Material.quantity m <= Inventory.current doc)%Q ->
  deductMaterial m s
  = (inr tt,
     on_inventory
       (insert itemId
          (Inventory.set_current
             (Inventory.current doc - Material.quantity m)%Q doc)) s).
Proof.
  intros Hitem Hdoc Hle. unfold deductMaterial. rewrite Hitem.
  unfold mbind at 1, M_bind at 1, gets. rewrite Hdoc.
  unfold Inventory_deduct, mbind, M_bind, lift.
  rewrite (deduct_enough _ _ Hle). reflexivity.
Qed.


Lemma deductMaterial_frame (m : Material.t) (s : Store) :
  same_documents s (snd (deductMaterial m s)).
Proof.
  unfold deductMaterial, same_documents.
  destruct (Material.item m) as [itemId|]; [|cbn; auto].
  unfold Inventory_deduct, mbind, M_bind, gets, lift, modify, mret, M_ret.
  destruct (inventory s !! itemId) as [doc|]; [|cbn; auto].
  destruct (Inventory.deduct (Material.quantity m) doc); cbn; auto.
Qed.

Lemma forEach_deduct_frame (l : list Material.t) (s : Store) :
  same_documents s (snd (forEach deductMaterial l s)).
Proof.
  revert s. induction l as [|m l IH]; intros s; cbn.
  - unfold same_documents. auto.
  - unfold mbind, M_bind.
    pose proof (deductMaterial_frame m s) as Hm.
    destruct (deductMaterial m s) as [[e|[]] s1]; cbn in *; [exact Hm|].
    specialize (IH s1). unfold same_documents in *.
    destruct Hm as (? & ? & ? & ?), IH as (? & ? & ? & ?).
    repeat split; congruence.
Qed.

(** C2, as the code has it.  On a first assignment the materials are
    deducted one after the other, each deduction being saved at once.
    At the first material whose quantity exceeds the stock of its item
    the request ends with status 500 "Server error" carrying the message
    "Insufficient stock" (no item is named); the task is not modified,
    the store is the one the earlier materials left behind, and nothing
    is deducted for the offending material or the ones after it. *)
Theorem assignment_stops_at_shortage (s s1 : Store) (user : Principal)
    (taskId : oid) (task : Task.t) (body : Body.t) (now : date)
    (pre post : list Material.t) (m : Material.t) (itemId : oid)
    (doc : Inventory.t) :
  tasks s !! taskId = Some task ->
  role user <> worker ->
  is_Some (Body.worker body) ->
  Task.worker task = None ->
  Task.materials task = pre ++ m :: post ->
  forEach deductMaterial pre s = (inr tt, s1) ->
  Material.item m = Some itemId ->
  inventory s1 !! itemId = Some doc ->
  (Inventory.current doc < Material.quantity m)%Q ->
  updateTask user taskId body now s
  = (mkResponse 500 false "Server error"
                (Some (Error "Insufficient stock")) NoData, s1)
  /\ same_documents s s1
  /\ tasks s1 !! taskId = Some task
  /\ inventory s1 !! itemId = Some doc.
Proof.
  intros Hfind Hrole Hbody Hnone Hmat Hpre Hitem Hdoc Hlt.
  pose proof (forEach_deduct_frame pre s) as Hframe.
  rewrite Hpre in Hframe. cbn in Hframe.
  split; [|split; [exact Hframe|split; [|exact Hdoc]]].
  - unfold updateTask, handler.
    unfold mbind at 1, M_bind at 1, gets. rewrite Hfind.
    rewrite (bool_decide_eq_false_2 _ Hrole). cbn [andb].
    rewrite (bool_decide_eq_true_2 _ Hbody).
    rewrite (bool_decide_eq_true_2 _ Hnone). cbn [andb].
    unfold mbind, M_bind.
    rewrite Hmat, forEach_app, Hpre. cbn [forEach].
    unfold mbind, M_bind.
    rewrite (deductMaterial_short m itemId doc s1 Hitem Hdoc Hlt).
    reflexivity.
  - destruct Hframe as (-> & _). exact Hfind.
Qed.

Lemma assignment_stops_at_shortage_witness :
  let s1 := snd (forEach deductMaterial
                   [Material.mk (Some "seed") "Grass seed" 4 "kg" false]
                   Sample.store) in
  updateTask Sample.admin1 "task2"
             (Body.mk (Some "worker1") None None None None None) 5000
             Sample.store
  = (mkResponse 500 false "Server error"
                (Some (Error "Insufficient stock")) NoData, s1)
  /\ same_documents Sample.store s1
  /\ tasks s1 !! "task2" = Some Sample.unassigned
  /\ inventory s1 !! "fert" = Some Sample.fertilizer.
Proof.
  intros s1.
  apply (assignment_stops_at_shortage Sample.store s1 Sample.admin1 "task2"
           Sample.unassigned (Body.mk (Some "worker1") None None None None None)
           5000 [Material.mk (Some "seed") "Grass seed" 4 "kg" false] []
           (Material.mk (Some "fert") "Fertilizer" 5 "kg" false)
           "fert" Sample.fertilizer).
  - reflexivity.
  - discriminate.
  - eexists; reflexivity.
  - reflexivity.
  - reflexivity.
  - reflexivity.
  - reflexivity.
  - reflexivity.
  - unfold Qlt; simpl; lia.
Defined.

(** C2 as stated fails: the assignment of task2 aborts on the
    fertilizer (5 wanted, 2 in stock), yet the 4 kg of grass seed
    deducted before it stay deducted (10 becomes 6), and the error
    carries no item name. *)
Lemma assignment_partial_deduction :
  let r := updateTask Sample.admin1 "task2"
             (Body.mk (Some "worker1") None None None None None) 5000
             Sample.store in
  success (fst r) = false
  /\ error (fst r) = Some (Error "Insufficient stock")
  /\ (Inventory.current <$> inventory Sample.store !! "seed") = Some 10%Q
  /\ (Inventory.current <$> inventory (snd r) !! "seed") = Some 6%Q
  /\ inventory (snd r) <> inventory Sample.store.
Proof.
  cbv zeta. do 4 (split; [vm_compute; reflexivity|]).
  intros H.
  apply (f_equal (fun m : gmap oid Inventory.t =>
                    Inventory.current <$> m !! "seed")) in H.
  vm_compute in H. discriminate H.
Qed.

(** ** Media attachments *)

Lemma slot_set_slot (imageType : string) (l l0 : list Attachment.t)
    (i : Images.t) :
  slot imageType i = Some l0 ->
  slot imageType (set_slot imageType l i) = Some l.
Proof.
  unfold slot, set_slot.
  destruct (String.eqb imageType "before") eqn:Eb.
  - intros _. reflexivity.
  - destruct (String.eqb imageType "after") eqn:Ea; [|discriminate].
    intros _. reflexivity.
Qed.

(** The slot that was not named keeps its list. *)
Lemma set_slot_other (imageType other : string) (l : list Attachment.t)
    (i : Images.t) :
  other <> imageType ->
  slot other (set_slot imageType l i) = slot other i.
Proof.
  intros Hne. unfold slot, set_slot.
  destruct (String.eqb imageType "before") eqn:Eb;
    [apply String.eqb_eq in Eb; subst|].
  - destruct (String.eqb other "before") eqn:Eo;
      [apply String.eqb_eq in Eo; congruence|reflexivity].
  - destruct (String.eqb imageType "after") eqn:Ea;
      [apply String.eqb_eq in Ea; subst|reflexivity].
    destruct (String.eqb other "before") eqn:Eo; [reflexivity|].
    destruct (String.eqb other "after") eqn:Eo';
      [apply String.eqb_eq in Eo'; congruence|reflexivity].
Qed.

Lemma imageObjects_length genId k uploader flag now files :
  length (imageObjects genId k uploader flag now files) = length files.
Proof.
  revert k. induction files as [|f files IH]; intros k; cbn; [reflexivity|].
  rewrite IH. reflexivity.
Qed.

Lemma imageObjects_flag genId k uploader flag now files :
  Forall (fun a => Attachment.isVisibleToClient a = flag)
         (imageObjects genId k uploader flag now files).
Proof.
  revert k. induction files as [|f files IH]; intros k; cbn;
    constructor; [reflexivity|apply IH].
Qed.

Lemma uploadTaskImages_run (s : Store) (user : Principal) (taskId : oid)
    (task : Task.t) (imageType : string) (v : jsval)
    (imageArray : list Attachment.t) (files : list File.t)
    (genId : nat -> oid) (now : date) :
  tasks s !! taskId = Some task ->
  (role user = worker -> Task.worker task = Some (id user)) ->
  slot imageType (Task.images task) = Some imageArray ->
  files <> [] ->
  let objs := imageObjects genId 0 (id user)
                (visibilityFlag (visibilityOrDefault v)) now files in
  let task' := Task.pre_save
                 (Task.set_images
                    (set_slot imageType (imageArray ++ objs) (Task.images task))
                    task) in
  uploadTaskImages user taskId imageType v files genId now s
  = (ok 200 (pretty (length files) +:+ " image(s) uploaded successfully")
        (ImagesData (Task.images task')),
     on_tasks (insert taskId task') s).
Proof.
  intros Hfind Hauth Hslot Hfiles objs task'.
  unfold uploadTaskImages. run_handler. rewrite Hfind.
  assert (bool_decide (role user = worker)
          && negb (bool_decide (Task.worker task = Some (id user))) = false)
    as ->.
  { destruct (decide (role user = worker)) as [Hw|Hw].
    - rewrite (bool_decide_eq_true_2 _ (Hauth Hw)). apply andb_false_r.
    - rewrite (bool_decide_eq_false_2 _ Hw). reflexivity. }
  rewrite Hslot.
  rewrite bool_decide_eq_false_2; [reflexivity|].
  destruct files; [congruence|cbn; lia].
Qed.

(** C7, as the code has it.  An upload onto the before or after slot
    appends one attachment per file.  When the request supplies no
    visibility value, or supplies [true] or ["true"], every appended
    attachment is visible to the client; with any other supplied value
    every appended attachment is hidden.  The other slot and the
    attachments already present are left alone. *)
Theorem upload_default_visible (s : Store) (user : Principal) (taskId : oid)
    (task : Task.t) (imageType : string) (v : jsval)
    (imageArray : list Attachment.t) (files : list File.t)
    (genId : nat -> oid) (now : date) :
  tasks s !! taskId = Some task ->
  (role user = worker -> Task.worker task = Some (id user)) ->
  slot imageType (Task.images task) = Some imageArray ->
  files <> [] ->
  exists task' added,
    uploadTaskImages user taskId imageType v files genId now s
    = (ok 200 (pretty (length files) +:+ " image(s) uploaded successfully")
          (ImagesData (Task.images task')),
       on_tasks (insert taskId task') s)
    /\ slot imageType (Task.images task') = Some (imageArray ++ added)
    /\ length added = length files
    /\ (v = JUndefined \/ v = JBool true \/ v = JStr "true" ->
        Forall (fun a => Attachment.isVisibleToClient a = true) added)
    /\ (v <> JUndefined -> v <> JBool true -> v <> JStr "true" ->
        Forall (fun a => Attachment.isVisibleToClient a = false) added)
    /\ (forall other, other <> imageType ->
        slot other (Task.images task') = slot other (Task.images task)).
Proof.
  intros Hfind Hauth Hslot Hfiles.
  eexists _, (imageObjects genId 0 (id user)
                (visibilityFlag (visibilityOrDefault v)) now files).
  split; [apply uploadTaskImages_run; eassumption|].
  rewrite pre_save_images. cbn [Task.images Task.set_images].
  split; [eapply slot_set_slot; eassumption|].
  split; [apply imageObjects_length|].
  split; [|split].
  - intros Hv.
    assert (visibilityFlag (visibilityOrDefault v) = true) as ->
      by (destruct Hv as [-> | [-> | ->]]; reflexivity).
    apply imageObjects_flag.
  - intros H1 H2 H3.
    assert (visibilityFlag (visibilityOrDefault v) = false) as ->.
    { destruct v as [| |[]| |str]; cbn; try reflexivity; try congruence.
      destruct (String.eqb str "true") eqn:E; [|reflexivity].
      apply String.eqb_eq in E. congruence. }
    apply imageObjects_flag.
  - intros other Hne. apply set_slot_other. assumption.
Qed.

Lemma upload_default_visible_witness :
  exists task' added,
    uploadTaskImages Sample.worker1 "task1" "after" JUndefined
      [File.mk (Some "https://cdn/p3.jpg") (Some "tasks/p3")]
      (fun k => "new" +:+ pretty k) 8000 Sample.store
    = (ok 200 (pretty 1%nat +:+ " image(s) uploaded successfully")
          (ImagesData (Task.images task')),
       on_tasks (insert "task1" task') Sample.store)
    /\ slot "after" (Task.images task') = Some ([] ++ added)
    /\ length added = 1%nat
    /\ (JUndefined = JUndefined \/ JUndefined = JBool true
        \/ JUndefined = JStr "true" ->
        Forall (fun a => Attachment.isVisibleToClient a = true) added)
    /\ (JUndefined <> JUndefined -> JUndefined <> JBool true ->
        JUndefined <> JStr "true" ->
        Forall (fun a => Attachment.isVisibleToClient a = false) added)
    /\ (forall other, other <> "after" ->
        slot other (Task.images task')
        = slot other (Task.images Sample.started)).
Proof.
  apply (upload_default_visible Sample.store Sample.worker1 "task1"
           Sample.started "after" JUndefined []
           [File.mk (Some "https://cdn/p3.jpg") (Some "tasks/p3")]
           (fun k => "new" +:+ pretty k) 8000).
  - reflexivity.
  - intros _. reflexivity.
  - reflexivity.
  - discriminate.
Defined.

(** C7 as stated fails: an upload that says nothing about visibility
    stores the new attachment as visible to the client. *)
Lemma upload_without_flag_is_visible :
  let s' := snd (uploadTaskImages Sample.worker1 "task1" "after" JUndefined
                   [File.mk (Some "https://cdn/p3.jpg") (Some "tasks/p3")]
                   (fun k => "new" +:+ pretty k) 8000 Sample.store) in
  (map Attachment.isVisibleToClient
     <$> (Images.after <$> (Task.images <$> tasks s' !! "task1")))
  = Some [true].
Proof. vm_compute. reflexivity. Qed.






(** ** Client feedback *)

Lemma feedback_auth (user : Principal) (task : Task.t) :
  (role user = client -> Task.client task = id user) ->
  bool_decide (role user = client)
  && negb (bool_decide (Task.client task = id user)) = false.
Proof.
  intros Hauth. destruct (decide (role user = client)) as [Hc|Hc].
  - rewrite (bool_decide_eq_true_2 _ (Hauth Hc)). apply andb_false_r.
  - rewrite (bool_decide_eq_false_2 _ Hc). reflexivity.
Qed.








(** ** Derived fields: duration and total cost *)

Lemma Math_round_bounds (x : Q) :
  (x - (1 # 2) < inject_Z (Task.Math_round x))%Q
  /\ (inject_Z (Task.Math_round x) <= x + (1 # 2))%Q.
Proof.
  unfold Task.Math_round. split.
  - pose proof (Qlt_floor (x + (1 # 2))) as H.
    rewrite inject_Z_plus in H. change (inject_Z 1) with 1%Q in H. lra.
  - apply Qfloor_le.
Qed.

(** The hook establishes both derived fields. *)
Lemma pre_save_derived (x : Task.t) : derived_ok (Task.pre_save x).
Proof.
  split.
  - unfold Task.pre_save. cbn. reflexivity.
  - intros s c Hs Hc.
    rewrite pre_save_startedAt in Hs. rewrite pre_save_completedAt in Hc.
    unfold Task.pre_save. rewrite Hs, Hc.
    cbn [Task.actualDuration Task.set_cost Task.set_actualDuration].
    unfold rounded2, hours. split.
    + eexists. reflexivity.
    + pose proof (Math_round_bounds
                    (inject_Z (c - s) / inject_Z (1000 * 60 * 60) * 100)) as [Hlo Hhi].
      change (inject_Z (1000 * 60 * 60)) with 3600000%Q in *.
      set (k := inject_Z (Task.Math_round _)) in *.
      set (d := (inject_Z (c - s) / 3600000)%Q) in *.
      clearbody k. clearbody d. unfold Qdiv.
      change (/ 100)%Q with (1 # 100)%Q. split; lra.
Qed.

(** Whatever [task.save()] writes satisfies them. *)
Lemma Task_save_derived (taskId : oid) (doc : Task.t) (s : Store) :
  exists doc',
    Task_save taskId doc s = (inr doc', on_tasks (insert taskId doc') s)
    /\ tasks (on_tasks (insert taskId doc') s) !! taskId = Some doc'
    /\ derived_ok doc'.
Proof.
  exists (Task.pre_save doc). split; [reflexivity|].
  split; [apply lookup_insert_eq|apply pre_save_derived].
Qed.

(** The [$set] of the generic update carries the stored duration and
    total over, whatever dates and cost parts the body brings. *)
Lemma applyUpdate_keeps_derived (b : Body.t) (x : Task.t) :
  Task.actualDuration (applyUpdate b x) = Task.actualDuration x
  /\ Cost.total (Task.cost (applyUpdate b x)) = Cost.total (Task.cost x).
Proof. split; reflexivity. Qed.

(** C6. The generic update writes through [findByIdAndUpdate] and runs
    no save hook.  Completing the started task1 through it one hour
    after its start stores both dates with [actualDuration] still 0
    (the dedicated complete call on the same task stores 1 hour), and
    setting [cost.labor] to 50 through it leaves [cost.total] at 0:
    after these persisting operations the derived fields are wrong. *)
Theorem updateTask_skips_save_hook :
  (exists x,
     tasks (snd (updateTask Sample.worker1 "task1"
                   (Body.set_status (Some completed) Body.empty) 7200000
                   Sample.store)) !! "task1" = Some x
     /\ Task.startedAt x = Some 3600000%Z
     /\ Task.completedAt x = Some 7200000%Z
     /\ (hours 3600000 7200000 == 1)%Q
     /\ Task.actualDuration x = 0%Q
     /\ ~ derived_ok x)
  /\ (exists y,
        tasks (snd (updateTask Sample.admin1 "task1"
                      (Body.mk None None None None (Some 50%Q) None) 7200000
                      Sample.store)) !! "task1" = Some y
        /\ Task.cost y = Cost.mk 50 0 0
        /\ ~ derived_ok y)
  /\ (exists z,
        tasks (snd (completeTask Sample.worker1 "task1" None None 7200000
                      Sample.store)) !! "task1" = Some z
        /\ (Task.actualDuration z == 1)%Q
        /\ derived_ok z).
Proof.
  split; [|split].
  - eexists. split; [vm_compute; reflexivity|].
    do 2 (split; [reflexivity|]). split; [reflexivity|].
    split; [reflexivity|].
    intros [_ H]. destruct (H _ _ eq_refl eq_refl) as (_ & Hlo & _).
    vm_compute in Hlo. discriminate Hlo.
  - eexists. split; [vm_compute; reflexivity|]. split; [reflexivity|].
    intros [H _]. vm_compute in H. discriminate H.
  - eexists. split.
    + rewrite (completeTask_run Sample.store Sample.worker1 "task1"
                 Sample.started None None 7200000 eq_refl eq_refl
                 ltac:(discriminate)).
      apply lookup_insert_eq.
    + split; [vm_compute; reflexivity|apply pre_save_derived].
Qed.

(** ** Reference-media snapshot *)





(** The lookup of the earlier revision follows the site: once the
    reference image of secA is deleted, it returns nothing for secA. *)
Example liveReferenceImages_follows_site :
  liveReferenceImages ["secA"] Sample.site1 = [Sample.imgA]
  /\ (liveReferenceImages ["secA"]
       <$> sites (snd (deleteSectionImage "site1" "secA" "ra1" Sample.store))
           !! "site1")
     = Some [].
Proof. split; vm_compute; reflexivity. Qed.





(** ** The completion cascade of the generic update *)

Lemma update_id_ids (sectionId : oid) (f : Section.t -> Section.t)
    (l : list Section.t) :
  (forall sec, Section._id (f sec) = Section._id sec) ->
  map Section._id (Site.update_id sectionId f l) = map Section._id l.
Proof.
  intros Hf. induction l as [|sec l IH]; cbn; [reflexivity|].
  case_bool_decide; cbn; [rewrite Hf|rewrite IH]; reflexivity.
Qed.

Lemma id_update_id (i j : oid) (f : Section.t -> Section.t)
    (l : list Section.t) :
  (forall sec, Section._id (f sec) = Section._id sec) ->
  Site.id i (Site.update_id j f l)
  = if bool_decide (i = j) then f <$> Site.id i l else Site.id i l.
Proof.
  intros Hf. unfold Site.id. induction l as [|sec l IH]; cbn.
  - case_bool_decide; reflexivity.
  - destruct (decide (Section._id sec = j)) as [Hj|Hj].
    + rewrite (bool_decide_eq_true_2 _ Hj). cbn. rewrite Hf.
      destruct (decide (i = j)) as [->|Hij].
      * rewrite (bool_decide_eq_true_2 _ Hj), bool_decide_eq_true_2 by reflexivity.
        reflexivity.
      * rewrite (bool_decide_eq_false_2 (i = j)) by assumption.
        rewrite (bool_decide_eq_false_2 (Section._id sec = i)) by congruence.
        reflexivity.
    + rewrite (bool_decide_eq_false_2 _ Hj). cbn.
      destruct (decide (Section._id sec = i)) as [Hi|Hi].
      * rewrite (bool_decide_eq_true_2 _ Hi).
        rewrite (bool_decide_eq_false_2 (i = j)) by congruence. reflexivity.
      * rewrite (bool_decide_eq_false_2 _ Hi). apply IH.
Qed.

Lemma updateSections_run (siteId : oid) (st : TaskStatus) (taskId : oid)
    (now : date) (ids : list oid) (doc : Site.t) (s : Store) :
  sites s !! siteId = Some doc ->
  updateSections siteId st taskId now ids doc s
  = (inr (stampSections st taskId now ids doc),
     on_sites (insert siteId (stampSections st taskId now ids doc)) s).
Proof.
  revert doc s. induction ids as [|i ids IH]; intros doc s Hdoc.
  - cbn. unfold mret, M_ret. f_equal. destruct s as [t si c u inv].
    unfold on_sites. cbn in *. rewrite insert_id by assumption. reflexivity.
  - cbn [updateSections stampSections fold_left].
    destruct (Site.updateSectionLastTask i st taskId now doc) as [doc'|] eqn:E;
      cbn [default].
    + unfold mbind, M_bind, modify.
      rewrite (IH doc' (on_sites (insert siteId doc') s));
        [|apply lookup_insert_eq].
      unfold stampSections. f_equal. destruct s as [t si c u inv].
      unfold on_sites. cbn. rewrite insert_insert_eq. reflexivity.
    + apply IH. assumption.
Qed.

Lemma updateSectionLastTask_id (i j : oid) (st : TaskStatus) (taskId : oid)
    (now : date) (doc : Site.t) :
  Site.id i (Site.sections
               (default doc (Site.updateSectionLastTask j st taskId now doc)))
  = if bool_decide (i = j)
    then Section.set_lastTask st now taskId <$> Site.id i (Site.sections doc)
    else Site.id i (Site.sections doc).
Proof.
  unfold Site.updateSectionLastTask.
  destruct (Site.id j (Site.sections doc)) as [sec|] eqn:E; cbn [default].
  - cbn [Site.sections Site.set_sections]. apply id_update_id. reflexivity.
  - case_bool_decide as Hij; [subst; rewrite E|]; reflexivity.
Qed.

Lemma updateSectionLastTask_counters (j : oid) (st : TaskStatus) (taskId : oid)
    (now : date) (doc : Site.t) :
  let doc' := default doc (Site.updateSectionLastTask j st taskId now doc) in
  Site.completedTasks doc' = Site.completedTasks doc
  /\ Site.totalTasks doc' = Site.totalTasks doc
  /\ Site.lastVisit doc' = Site.lastVisit doc
  /\ Site.client doc' = Site.client doc.
Proof.
  unfold Site.updateSectionLastTask.
  destruct (Site.id j (Site.sections doc)); cbn; auto.
Qed.

Lemma stampSections_counters (st : TaskStatus) (taskId : oid) (now : date)
    (ids : list oid) (doc : Site.t) :
  Site.completedTasks (stampSections st taskId now ids doc)
  = Site.completedTasks doc
  /\ Site.totalTasks (stampSections st taskId now ids doc) = Site.totalTasks doc
  /\ Site.lastVisit (stampSections st taskId now ids doc) = Site.lastVisit doc
  /\ Site.client (stampSections st taskId now ids doc) = Site.client doc.
Proof.
  revert doc. induction ids as [|j ids IH]; intros doc; [cbn; auto|].
  change (stampSections st taskId now (j :: ids) doc)
    with (stampSections st taskId now ids
            (default doc (Site.updateSectionLastTask j st taskId now doc))).
  destruct (IH (default doc (Site.updateSectionLastTask j st taskId now doc)))
    as (H1 & H2 & H3 & H4).
  destruct (updateSectionLastTask_counters j st taskId now doc)
    as (K1 & K2 & K3 & K4).
  cbv zeta in *. repeat split; congruence.
Qed.

(** After the loop, the section an id resolves to carries the summary
    when the id was in the task's list, and is as before otherwise. *)
Lemma stampSections_id (st : TaskStatus) (taskId : oid) (now : date)
    (ids : list oid) (doc : Site.t) (i : oid) :
  Site.id i (Site.sections (stampSections st taskId now ids doc))
  = if bool_decide (i ∈ ids)
    then Section.set_lastTask st now taskId <$> Site.id i (Site.sections doc)
    else Site.id i (Site.sections doc).
Proof.
  revert doc. induction ids as [|j ids IH]; intros doc.
  - cbn. rewrite bool_decide_eq_false_2 by apply not_elem_of_nil. reflexivity.
  - change (stampSections st taskId now (j :: ids) doc)
      with (stampSections st taskId now ids
              (default doc (Site.updateSectionLastTask j st taskId now doc))).
    rewrite IH, updateSectionLastTask_id.
    destruct (decide (i = j)) as [->|Hij].
    + rewrite (bool_decide_eq_true_2 (j = j)) by reflexivity.
      rewrite (bool_decide_eq_true_2 (j ∈ j :: ids)) by apply list_elem_of_here.
      destruct (Site.id j (Site.sections doc)); case_bool_decide; reflexivity.
    + rewrite (bool_decide_eq_false_2 (i = j)) by assumption.
      rewrite (bool_decide_ext (i ∈ j :: ids) (i ∈ ids)); [reflexivity|].
      rewrite elem_of_cons. tauto.
Qed.

Lemma completionCascade_run (taskId : oid) (task : Task.t) (now : date)
    (siteDoc : Site.t) (s : Store) :
  sites s !! Task.site task = Some siteDoc ->
  completionCascade taskId task now s
  = (inr tt,
     mkStore
       (tasks s)
       (<[Task.site task :=
            stampSections completed taskId now (Task.sections task)
                          (Site.incCompleted now siteDoc)]> (sites s))
       (alter Client.incCompleted (Task.client task) (clients s))
       (match Task.worker task with
        | Some w => alter User.incCompleted w (users s)
        | None => users s
        end)
       (inventory s)).
Proof.
  intros Hsite. unfold completionCascade, propagate.
  destruct (Task.worker task) as [w|];
    unfold mbind, M_bind, modify, gets, mret, M_ret;
    cbn [on_sites on_users on_clients sites tasks clients users inventory];
    rewrite lookup_alter_eq, Hsite; cbn [fmap option_fmap option_map];
    (rewrite updateSections_run
      by (cbn; rewrite lookup_alter_eq, Hsite; reflexivity));
    unfold on_sites; cbn [sites tasks clients users inventory];
    f_equal; f_equal;
    (apply map_eq; intros k;
     destruct (decide (k = Task.site task)) as [->|Hk];
     [rewrite !lookup_insert_eq; reflexivity
     |rewrite !lookup_insert_ne by congruence;
      rewrite lookup_alter_ne by congruence; reflexivity]).
Qed.

(** X15. What the generic update does when its body marks a task completed
    that was not, outside a first assignment: the task gets the status
    and [completedAt]; the client's, the worker's and the site's
    [completedTasks] rise by one; [lastVisit] is set; every section the
    task references and the site has carries the last-task summary. *)
Lemma updateTask_completion_cascade (s : Store) (user : Principal)
    (taskId : oid) (task : Task.t) (body : Body.t) (now : date)
    (siteDoc : Site.t) :
  tasks s !! taskId = Some task ->
  (role user = worker -> Task.worker task = Some (id user)) ->
  Body.status body = Some completed ->
  Task.status task <> completed ->
  Body.worker body = None \/ Task.worker task <> None ->
  sites s !! Task.site task = Some siteDoc ->
  exists task' s' site',
    updateTask user taskId body now s
    = (ok 200 "Task updated successfully" (TaskData task'), s')
    /\ tasks s' !! taskId = Some task'
    /\ Task.status task' = completed
    /\ Task.completedAt task' = Some now
    /\ clients s' = alter Client.incCompleted (Task.client task) (clients s)
    /\ users s' = match Task.worker task with
                  | Some w => alter User.incCompleted w (users s)
                  | None => users s
                  end
    /\ sites s' = <[Task.site task := site']> (sites s)
    /\ Site.completedTasks site' = (Site.completedTasks siteDoc + 1)%Z
    /\ Site.lastVisit site' = Some now
    /\ (forall i, i ∈ Task.sections task ->
        Site.id i (Site.sections site')
        = Section.set_lastTask completed now taskId
            <$> Site.id i (Site.sections siteDoc)).
Proof.
  intros Hfind Hauth Hbody Hstatus Hassign Hsite.
  unfold updateTask, handler.
  unfold mbind at 1, M_bind at 1, gets. rewrite Hfind.
  assert (bool_decide (role user = worker)
          && negb (bool_decide (Task.worker task = Some (id user))) = false)
    as ->.
  { destruct (decide (role user = worker)) as [Hw|Hw].
    - rewrite (bool_decide_eq_true_2 _ (Hauth Hw)). apply andb_false_r.
    - rewrite (bool_decide_eq_false_2 _ Hw). reflexivity. }
  assert (bool_decide (is_Some (Body.worker body))
          && bool_decide (Task.worker task = None) = false) as ->.
  { destruct Hassign as [Hb|Ht].
    - rewrite Hb. rewrite bool_decide_eq_false_2; [reflexivity|].
      intros [x Hx]. discriminate Hx.
    - rewrite (bool_decide_eq_false_2 _ Ht). apply andb_false_r. }
  unfold mbind, M_bind, mret, M_ret.
  rewrite Hbody, (bool_decide_eq_true_2 (Some completed = Some completed))
    by reflexivity.
  rewrite (bool_decide_eq_false_2 _ Hstatus). cbn [negb andb].
  rewrite (completionCascade_run taskId task now siteDoc s Hsite).
  cbn [Body.status Body.set_completedAt].
  rewrite Hbody, (bool_decide_eq_false_2 (Some completed = Some rejected))
    by discriminate.
  cbn [andb]. unfold modify.
  eexists _, _, _. split; [reflexivity|].
  cbn [on_tasks tasks sites clients users].
  split; [apply lookup_insert_eq|].
  split; [cbn; rewrite Hbody; reflexivity|].
  split; [reflexivity|]. split; [reflexivity|]. split; [reflexivity|].
  split; [reflexivity|].
  destruct (stampSections_counters completed taskId now (Task.sections task)
              (Site.incCompleted now siteDoc)) as (Hc & _ & Hv & _).
  split; [rewrite Hc; reflexivity|]. split; [rewrite Hv; reflexivity|].
  intros i Hi. rewrite stampSections_id, (bool_decide_eq_true_2 _ Hi).
  reflexivity.
Qed.

(** ** Toggling and deleting one attachment *)

Ltac run_handlerWith :=
  unfold Task_save;
  unfold handlerWith, mbind, M_bind, mret, M_ret, gets, modify, lift, throw; cbn.

Lemma findIndex_split (imageId : string) (pre post : list Attachment.t)
    (a : Attachment.t) :
  Attachment._id a = imageId ->
  imageId ∉ map Attachment._id pre ->
  findIndex imageId (pre ++ a :: post) = Some (length pre).
Proof.
  intros Ha. induction pre as [|b pre IH]; intros Hpre; cbn.
  - rewrite (bool_decide_eq_true_2 _ Ha). reflexivity.
  - cbn in Hpre. apply not_elem_of_cons in Hpre as [Hb Hpre].
    rewrite bool_decide_eq_false_2 by congruence.
    rewrite (IH Hpre). reflexivity.
Qed.

Lemma findIndex_None (imageId : string) (l : list Attachment.t) :
  imageId ∉ map Attachment._id l -> findIndex imageId l = None.
Proof.
  induction l as [|b l IH]; intros Hl; cbn; [reflexivity|].
  cbn in Hl. apply not_elem_of_cons in Hl as [Hb Hl].
  rewrite bool_decide_eq_false_2 by congruence.
  rewrite (IH Hl). reflexivity.
Qed.

(** Every id of the slot is found at its first occurrence. *)
Lemma first_occurrence (imageId : string) (l : list Attachment.t) :
  imageId ∈ map Attachment._id l ->
  exists pre a post,
    l = pre ++ a :: post /\ Attachment._id a = imageId
    /\ imageId ∉ map Attachment._id pre.
Proof.
  induction l as [|b l IH]; cbn; intros Hin.
  - apply elem_of_nil in Hin. destruct Hin.
  - destruct (decide (Attachment._id b = imageId)) as [Hb|Hb].
    + exists [], b, l. repeat split; [assumption|apply not_elem_of_nil].
    + apply elem_of_cons in Hin as [Hin|Hin]; [congruence|].
      destruct (IH Hin) as (pre & a & post & -> & Ha & Hpre).
      exists (b :: pre), a, post. repeat split; [assumption|].
      cbn. apply not_elem_of_cons. split; [congruence|assumption].
Qed.

Lemma alter_middle {A} (f : A -> A) (pre post : list A) (a : A) :
  alter f (length pre) (pre ++ a :: post) = pre ++ f a :: post.
Proof.
  induction pre as [|b pre IH]; cbn; [reflexivity|].
  f_equal. exact IH.
Qed.

Lemma splice1_middle {A} (pre post : list A) (a : A) :
  splice1 (length pre) (pre ++ a :: post) = pre ++ post.
Proof.
  unfold splice1. rewrite take_app_length.
  replace (S (length pre)) with (length pre + 1)%nat by lia.
  rewrite <- drop_drop, drop_app_length. reflexivity.
Qed.

Lemma set_slot_same (imageType : string) (l : list Attachment.t) (i : Images.t) :
  slot imageType i = Some l -> set_slot imageType l i = i.
Proof.
  unfold slot, set_slot. destruct i as [b a]. cbn.
  destruct (String.eqb imageType "before");
    [intros [= ->]; reflexivity|].
  destruct (String.eqb imageType "after"); [intros [= ->]; reflexivity|].
  discriminate.
Qed.

Lemma set_slot_set_slot (imageType : string) (l l' : list Attachment.t)
    (i : Images.t) :
  set_slot imageType l (set_slot imageType l' i) = set_slot imageType l i.
Proof.
  unfold set_slot. destruct (String.eqb imageType "before"); [reflexivity|].
  destruct (String.eqb imageType "after"); reflexivity.
Qed.

Lemma flipVisibility_twice (a : Attachment.t) :
  flipVisibility (flipVisibility a) = a.
Proof.
  destruct a. unfold flipVisibility. cbn. rewrite negb_involutive. reflexivity.
Qed.

Lemma toggleImageVisibility_run (s : Store) (taskId : oid) (task : Task.t)
    (imageId imageType : string) (pre post : list Attachment.t)
    (a : Attachment.t) :
  tasks s !! taskId = Some task ->
  slot imageType (Task.images task) = Some (pre ++ a :: post) ->
  Attachment._id a = imageId ->
  imageId ∉ map Attachment._id pre ->
  toggleImageVisibility taskId imageId imageType s
  = ((ok 200 "Image visibility updated successfully" NoData,
      Some (imageId, negb (Attachment.isVisibleToClient a))),
     on_tasks
       (insert taskId
          (Task.pre_save
             (Task.set_images
                (set_slot imageType (pre ++ flipVisibility a :: post)
                          (Task.images task)) task))) s).
Proof.
  intros Hfind Hslot Ha Hpre. unfold toggleImageVisibility. run_handlerWith.
  rewrite Hfind, Hslot, (findIndex_split imageId pre post a Ha Hpre).
  rewrite alter_middle, list_lookup_middle by reflexivity. reflexivity.
Qed.

(** X1. A visibility toggle on an attachment of the slot flips the flag
    of the first attachment carrying that id and of no other, keeps the
    other slot, and answers with the id and the new flag. *)
Theorem toggle_flips_first (s : Store) (taskId : oid) (task : Task.t)
    (imageId imageType : string) (pre post : list Attachment.t)
    (a : Attachment.t) :
  tasks s !! taskId = Some task ->
  slot imageType (Task.images task) = Some (pre ++ a :: post) ->
  Attachment._id a = imageId ->
  imageId ∉ map Attachment._id pre ->
  exists task',
    toggleImageVisibility taskId imageId imageType s
    = ((ok 200 "Image visibility updated successfully" NoData,
        Some (imageId, negb (Attachment.isVisibleToClient a))),
       on_tasks (insert taskId task') s)
    /\ slot imageType (Task.images task')
       = Some (pre
               ++ Attachment.set_isVisibleToClient
                    (negb (Attachment.isVisibleToClient a)) a
               :: post)
    /\ (forall other, other <> imageType ->
        slot other (Task.images task') = slot other (Task.images task)).
Proof.
  intros Hfind Hslot Ha Hpre. eexists. split.
  - apply toggleImageVisibility_run; eassumption.
  - rewrite pre_save_images. cbn [Task.images Task.set_images]. split.
    + eapply slot_set_slot. eassumption.
    + intros other Hne. apply set_slot_other. assumption.
Qed.

Lemma toggle_flips_first_witness :
  exists task',
    toggleImageVisibility "task1" "img2" "before" Sample.store
    = ((ok 200 "Image visibility updated successfully" NoData,
        Some ("img2", true)),
       on_tasks (insert "task1" task') Sample.store)
    /\ slot "before" (Task.images task')
       = Some [Sample.photo1;
               Attachment.set_isVisibleToClient true Sample.photo2]
    /\ (forall other, other <> "before" ->
        slot other (Task.images task')
        = slot other (Task.images Sample.started)).
Proof.
  apply (toggle_flips_first Sample.store "task1" Sample.started "img2" "before"
           [Sample.photo1] [] Sample.photo2).
  - reflexivity.
  - reflexivity.
  - reflexivity.
  - cbn. intros H. apply elem_of_cons in H as [H|H]; [discriminate H|].
    apply elem_of_nil in H. exact H.
Defined.

(** X2. Toggling the same attachment twice puts the images of the task
    back as they were: both calls succeed and the stored before and
    after lists equal the original ones. *)
Theorem toggle_twice (s : Store) (taskId : oid) (task : Task.t)
    (imageId imageType : string) (imageArray : list Attachment.t) :
  tasks s !! taskId = Some task ->
  slot imageType (Task.images task) = Some imageArray ->
  imageId ∈ map Attachment._id imageArray ->
  let first := toggleImageVisibility taskId imageId imageType s in
  let second := toggleImageVisibility taskId imageId imageType (snd first) in
  code (fst (fst first)) = 200%Z
  /\ code (fst (fst second)) = 200%Z
  /\ (Task.images <$> tasks (snd second) !! taskId) = Some (Task.images task).
Proof.
  intros Hfind Hslot Hin first second.
  destruct (first_occurrence imageId imageArray Hin)
    as (pre & a & post & -> & Ha & Hpre).
  subst first second.
  rewrite (toggleImageVisibility_run s taskId task imageId imageType pre post a
             Hfind Hslot Ha Hpre).
  cbn [fst snd].
  set (task1 := Task.pre_save
                  (Task.set_images
                     (set_slot imageType (pre ++ flipVisibility a :: post)
                               (Task.images task)) task)).
  rewrite (toggleImageVisibility_run _ taskId task1 imageId imageType pre post
             (flipVisibility a)).
  - subst task1. cbn [fst snd code ok on_tasks tasks].
    split; [reflexivity|]. split; [reflexivity|].
    rewrite lookup_insert_eq. cbn [fmap option_fmap option_map].
    rewrite pre_save_images. cbn [Task.images Task.set_images].
    rewrite pre_save_images. cbn [Task.images Task.set_images].
    rewrite flipVisibility_twice, set_slot_set_slot.
    rewrite (set_slot_same _ _ _ Hslot). reflexivity.
  - cbn. apply lookup_insert_eq.
  - subst task1. rewrite pre_save_images. cbn [Task.images Task.set_images].
    eapply slot_set_slot. eassumption.
  - exact Ha.
  - exact Hpre.
Qed.

Lemma toggle_twice_witness :
  let first := toggleImageVisibility "task1" "img1" "before" Sample.store in
  let second := toggleImageVisibility "task1" "img1" "before" (snd first) in
  code (fst (fst first)) = 200%Z
  /\ code (fst (fst second)) = 200%Z
  /\ (Task.images <$> tasks (snd second) !! "task1")
     = Some (Task.images Sample.started).
Proof.
  apply (toggle_twice Sample.store "task1" Sample.started "img1" "before"
           [Sample.photo1; Sample.photo2]).
  - reflexivity.
  - reflexivity.
  - cbn. apply list_elem_of_here.
Defined.



Lemma worker_may (user : Principal) (task : Task.t) :
  (role user = worker -> Task.worker task = Some (id user)) ->
  bool_decide (role user = worker)
  && negb (bool_decide (Task.worker task = Some (id user))) = false.
Proof.
  intros Hauth. destruct (decide (role user = worker)) as [Hw|Hw].
  - rewrite (bool_decide_eq_true_2 _ (Hauth Hw)). apply andb_false_r.
  - rewrite (bool_decide_eq_false_2 _ Hw). reflexivity.
Qed.

Lemma worker_may_not (user : Principal) (task : Task.t) :
  role user = worker ->
  Task.worker task <> Some (id user) ->
  bool_decide (role user = worker)
  && negb (bool_decide (Task.worker task = Some (id user))) = true.
Proof.
  intros Hw Hne. rewrite (bool_decide_eq_true_2 _ Hw).
  rewrite (bool_decide_eq_false_2 _ Hne). reflexivity.
Qed.

(** X4. Deleting an attachment through the task controller removes the
    first attachment of the slot carrying that id and nothing else (the
    order of the others and the other slot are kept), and asks the media
    host to delete its storage id exactly when the attachment has one. *)
Theorem deleteTaskImage_removes_first (s : Store) (user : Principal)
    (taskId : oid) (task : Task.t) (imageId imageType : string)
    (pre post : list Attachment.t) (a : Attachment.t) :
  tasks s !! taskId = Some task ->
  (role user = worker -> Task.worker task = Some (id user)) ->
  slot imageType (Task.images task) = Some (pre ++ a :: post) ->
  Attachment._id a = imageId ->
  imageId ∉ map Attachment._id pre ->
  exists task' asked,
    deleteTaskImage user taskId imageId imageType s
    = ((ok 200 "Image deleted successfully" NoData, asked),
       on_tasks (insert taskId task') s)
    /\ slot imageType (Task.images task') = Some (pre ++ post)
    /\ (forall other, other <> imageType ->
        slot other (Task.images task') = slot other (Task.images task))
    /\ (forall cid, Attachment.cloudinaryId a = Some cid -> cid <> EmptyString ->
        asked = [cid])
    /\ (Attachment.cloudinaryId a = None -> asked = []).
Proof.
  intros Hfind Hauth Hslot Ha Hpre.
  eexists _, _. split.
  - unfold deleteTaskImage. run_handlerWith.
    rewrite Hfind, (worker_may user task Hauth), Hslot.
    rewrite (findIndex_split imageId pre post a Ha Hpre).
    rewrite splice1_middle, list_lookup_middle by reflexivity. reflexivity.
  - rewrite pre_save_images. cbn [Task.images Task.set_images].
    split; [eapply slot_set_slot; eassumption|].
    split; [intros other Hne; apply set_slot_other; assumption|].
    split.
    + intros cid Hcid Hne. rewrite Hcid. cbn.
      destruct (String.eqb cid EmptyString) eqn:E; [|reflexivity].
      apply String.eqb_eq in E. congruence.
    + intros ->. reflexivity.
Qed.

Lemma deleteTaskImage_removes_first_witness :
  exists task' asked,
    deleteTaskImage Sample.worker1 "task1" "img1" "before" Sample.store
    = ((ok 200 "Image deleted successfully" NoData, asked),
       on_tasks (insert "task1" task') Sample.store)
    /\ slot "before" (Task.images task') = Some [Sample.photo2]
    /\ asked = ["tasks/p1"].
Proof.
  destruct (deleteTaskImage_removes_first Sample.store Sample.worker1 "task1"
              Sample.started "img1" "before" [] [Sample.photo2] Sample.photo1
              eq_refl (fun _ => eq_refl) eq_refl eq_refl)
    as (task' & asked & Hrun & Hslot & _ & Hasked & _).
  - apply not_elem_of_nil.
  - exists task', asked. split; [exact Hrun|]. split; [exact Hslot|].
    apply Hasked; [reflexivity|discriminate].
Defined.

(** X5. A deletion through the task controller that is refused (unknown
    task, a worker who is not the assigned one, a slot other than before
    or after, an id the slot does not hold) writes nothing and asks
    nothing of the media host. *)
Theorem deleteTaskImage_refused (s : Store) (user : Principal) (taskId : oid)
    (imageId imageType : string) :
  (tasks s !! taskId = None ->
   deleteTaskImage user taskId imageId imageType s
   = ((reject 404 "Task not found", []), s))
  /\ (forall task,
        tasks s !! taskId = Some task ->
        role user = worker -> Task.worker task <> Some (id user) ->
        deleteTaskImage user taskId imageId imageType s
        = ((reject 403 "Not authorized", []), s))
  /\ (forall task,
        tasks s !! taskId = Some task ->
        (role user = worker -> Task.worker task = Some (id user)) ->
        slot imageType (Task.images task) = None ->
        deleteTaskImage user taskId imageId imageType s
        = ((reject 400 "Invalid image type", []), s))
  /\ (forall task imageArray,
        tasks s !! taskId = Some task ->
        (role user = worker -> Task.worker task = Some (id user)) ->
        slot imageType (Task.images task) = Some imageArray ->
        imageId ∉ map Attachment._id imageArray ->
        deleteTaskImage user taskId imageId imageType s
        = ((reject 404 "Image not found", []), s)).
Proof.
  split; [|split; [|split]].
  - intros Hnone. unfold deleteTaskImage. run_handlerWith.
    rewrite Hnone. reflexivity.
  - intros task Hfind Hw Hne. unfold deleteTaskImage. run_handlerWith.
    rewrite Hfind, (worker_may_not user task Hw Hne). reflexivity.
  - intros task Hfind Hauth Hslot. unfold deleteTaskImage. run_handlerWith.
    rewrite Hfind, (worker_may user task Hauth), Hslot. reflexivity.
  - intros task imageArray Hfind Hauth Hslot Hnot.
    unfold deleteTaskImage. run_handlerWith.
    rewrite Hfind, (worker_may user task Hauth), Hslot.
    rewrite (findIndex_None _ _ Hnot). reflexivity.
Qed.

Lemma deleteTaskImage_refused_witness :
  deleteTaskImage Sample.admin1 "nope" "img1" "before" Sample.store
  = ((reject 404 "Task not found", []), Sample.store)
  /\ deleteTaskImage Sample.worker1 "task2" "img1" "before" Sample.store
     = ((reject 403 "Not authorized", []), Sample.store)
  /\ deleteTaskImage Sample.admin1 "task1" "img1" "reference" Sample.store
     = ((reject 400 "Invalid image type", []), Sample.store)
  /\ deleteTaskImage Sample.admin1 "task1" "img1" "after" Sample.store
     = ((reject 404 "Image not found", []), Sample.store).
Proof.
  split; [|split; [|split]].
  - apply (deleteTaskImage_refused Sample.store Sample.admin1 "nope" "img1"
             "before"). reflexivity.
  - apply (deleteTaskImage_refused Sample.store Sample.worker1 "task2" "img1"
             "before") with (task := Sample.unassigned);
      [reflexivity|reflexivity|discriminate].
  - apply (deleteTaskImage_refused Sample.store Sample.admin1 "task1" "img1"
             "reference") with (task := Sample.started);
      [reflexivity|discriminate|reflexivity].
  - apply (deleteTaskImage_refused Sample.store Sample.admin1 "task1" "img1"
             "after") with (task := Sample.started) (imageArray := []);
      [reflexivity|discriminate|reflexivity|apply not_elem_of_nil].
Defined.

(** ** Assignment through the dedicated endpoint, and deletion *)

Lemma assignTask_run (s : Store) (taskId workerId : oid) (task : Task.t)
    (u : User.t) (notification : option exn) :
  tasks s !! taskId = Some task ->
  users s !! workerId = Some u ->
  User.role u = worker ->
  let task' := Task.pre_save
                 (Task.set_status assigned
                    (Task.set_worker (Some workerId) task)) in
  assignTask taskId workerId notification s
  = (match notification with
     | None => ok 200 "Task assigned successfully" (TaskData task')
     | Some e => mkResponse 500 false "Failed to assign task" (Some e) NoData
     end,
     on_tasks (insert taskId task') s).
Proof.
  intros Hfind Huser Hrole task'. unfold assignTask. run_handler.
  rewrite Hfind, Huser, (bool_decide_eq_true_2 _ Hrole).
  destruct notification; reflexivity.
Qed.

(** X6. The assign endpoint, given an existing user of role worker,
    succeeds from any status and over any previous worker: the task gets
    that worker and status assigned.  It deducts no material: the
    inventory, like the sites, clients and users, is left untouched. *)
Theorem assignTask_no_deduction (s : Store) (taskId workerId : oid)
    (task : Task.t) (u : User.t) :
  tasks s !! taskId = Some task ->
  users s !! workerId = Some u ->
  User.role u = worker ->
  exists task' s',
    assignTask taskId workerId None s
    = (ok 200 "Task assigned successfully" (TaskData task'), s')
    /\ tasks s' !! taskId = Some task'
    /\ Task.worker task' = Some workerId
    /\ Task.status task' = assigned
    /\ inventory s' = inventory s
    /\ sites s' = sites s
    /\ clients s' = clients s
    /\ users s' = users s.
Proof.
  intros Hfind Huser Hrole. eexists _, _. split.
  - apply (assignTask_run s taskId workerId task u None); assumption.
  - split; [apply lookup_insert_eq|].
    rewrite pre_save_worker, pre_save_status.
    repeat split.
Qed.

Lemma assignTask_no_deduction_witness :
  exists task' s',
    assignTask "task2" "worker1" None Sample.store
    = (ok 200 "Task assigned successfully" (TaskData task'), s')
    /\ tasks s' !! "task2" = Some task'
    /\ Task.worker task' = Some "worker1"
    /\ Task.status task' = assigned
    /\ inventory s' = inventory Sample.store
    /\ sites s' = sites Sample.store
    /\ clients s' = clients Sample.store
    /\ users s' = users Sample.store.
Proof.
  apply (assignTask_no_deduction Sample.store "task2" "worker1"
           Sample.unassigned (User.mk worker 7)); reflexivity.
Defined.

(** X7. When the notification of the worker fails, the assign endpoint
    answers 500 "Failed to assign task", yet the assignment it saved
    before notifying stays: the store is the one a successful call
    leaves. *)
Theorem assignTask_notification_failure (s : Store) (taskId workerId : oid)
    (task : Task.t) (u : User.t) (e : exn) :
  tasks s !! taskId = Some task ->
  users s !! workerId = Some u ->
  User.role u = worker ->
  fst (assignTask taskId workerId (Some e) s)
  = mkResponse 500 false "Failed to assign task" (Some e) NoData
  /\ snd (assignTask taskId workerId (Some e) s)
     = snd (assignTask taskId workerId None s)
  /\ (Task.worker <$> tasks (snd (assignTask taskId workerId (Some e) s)) !! taskId)
     = Some (Some workerId)
  /\ (Task.status <$> tasks (snd (assignTask taskId workerId (Some e) s)) !! taskId)
     = Some assigned.
Proof.
  intros Hfind Huser Hrole.
  rewrite (assignTask_run s taskId workerId task u (Some e) Hfind Huser Hrole).
  rewrite (assignTask_run s taskId workerId task u None Hfind Huser Hrole).
  cbn [fst snd on_tasks tasks]. rewrite lookup_insert_eq.
  cbn [fmap option_fmap option_map].
  rewrite pre_save_worker, pre_save_status. repeat split.
Qed.

Lemma assignTask_notification_failure_witness :
  fst (assignTask "task2" "worker1" (Some (Error "WhatsApp unreachable"))
         Sample.store)
  = mkResponse 500 false "Failed to assign task"
               (Some (Error "WhatsApp unreachable")) NoData
  /\ snd (assignTask "task2" "worker1" (Some (Error "WhatsApp unreachable"))
            Sample.store)
     = snd (assignTask "task2" "worker1" None Sample.store)
  /\ (Task.worker
        <$> tasks (snd (assignTask "task2" "worker1"
                          (Some (Error "WhatsApp unreachable")) Sample.store))
            !! "task2")
     = Some (Some "worker1")
  /\ (Task.status
        <$> tasks (snd (assignTask "task2" "worker1"
                          (Some (Error "WhatsApp unreachable")) Sample.store))
            !! "task2")
     = Some assigned.
Proof.
  apply (assignTask_notification_failure Sample.store "task2" "worker1"
           Sample.unassigned (User.mk worker 7)); reflexivity.
Defined.

(** X8. The assign endpoint refuses an unknown user and a user whose
    role is not worker with 404 "Worker not found", and an unknown task
    with 404 "Task not found"; nothing is written and nobody is
    notified. *)
Theorem assignTask_refused (s : Store) (taskId workerId : oid)
    (notification : option exn) :
  (tasks s !! taskId = None ->
   assignTask taskId workerId notification s
   = (reject 404 "Task not found", s))
  /\ (forall task,
        tasks s !! taskId = Some task ->
        (users s !! workerId = None
         \/ exists u, users s !! workerId = Some u /\ User.role u <> worker) ->
        assignTask taskId workerId notification s
        = (reject 404 "Worker not found", s)).
Proof.
  split.
  - intros Hnone. unfold assignTask. run_handler. rewrite Hnone. reflexivity.
  - intros task Hfind [Hnone | (u & Hu & Hrole)];
      unfold assignTask; run_handler; rewrite Hfind.
    + rewrite Hnone. reflexivity.
    + rewrite Hu, (bool_decide_eq_false_2 _ Hrole). reflexivity.
Qed.

Lemma assignTask_refused_witness :
  assignTask "nope" "worker1" (Some TypeError) Sample.store
  = (reject 404 "Task not found", Sample.store)
  /\ assignTask "task2" "admin1" (Some TypeError) Sample.store
     = (reject 404 "Worker not found", Sample.store)
  /\ assignTask "task2" "ghost" (Some TypeError) Sample.store
     = (reject 404 "Worker not found", Sample.store).
Proof.
  split; [|split].
  - apply (assignTask_refused Sample.store "nope" "worker1" (Some TypeError)).
    reflexivity.
  - apply (assignTask_refused Sample.store "task2" "admin1" (Some TypeError))
      with (task := Sample.unassigned); [reflexivity|].
    right. exists (User.mk admin 0). split; [reflexivity|discriminate].
  - apply (assignTask_refused Sample.store "task2" "ghost" (Some TypeError))
      with (task := Sample.unassigned); [reflexivity|].
    left. reflexivity.
Defined.

Lemma deleteTask_run (s : Store) (taskId : oid) (task : Task.t) :
  tasks s !! taskId = Some task ->
  deleteTask taskId s
  = (ok 200 "Task deleted successfully" NoData, on_tasks (delete taskId) s).
Proof.
  intros Hfind. unfold deleteTask. run_handler. rewrite Hfind. reflexivity.
Qed.

(** X9. Deleting a task removes that task and nothing else: afterwards
    reading it answers 404, every other task is as before, and the
    sites, clients, users and inventory are untouched, so no counter is
    taken back and sections keep pointing at the deleted task. *)
Theorem deleteTask_only_task (s : Store) (taskId : oid) (task : Task.t)
    (user : Principal) :
  tasks s !! taskId = Some task ->
  exists s',
    deleteTask taskId s = (ok 200 "Task deleted successfully" NoData, s')
    /\ getTask user taskId s' = (reject 404 "Task not found", s')
    /\ (forall other, other <> taskId -> tasks s' !! other = tasks s !! other)
    /\ sites s' = sites s
    /\ clients s' = clients s
    /\ users s' = users s
    /\ inventory s' = inventory s.
Proof.
  intros Hfind. eexists. split; [apply (deleteTask_run s taskId task Hfind)|].
  split.
  - unfold getTask. run_handler. rewrite lookup_delete_eq. reflexivity.
  - split; [|repeat split].
    intros other Hne. cbn. apply lookup_delete_ne. congruence.
Qed.

Lemma deleteTask_only_task_witness :
  exists s',
    deleteTask "task1" Sample.store
    = (ok 200 "Task deleted successfully" NoData, s')
    /\ getTask Sample.admin1 "task1" s' = (reject 404 "Task not found", s')
    /\ (forall other, other <> "task1" ->
        tasks s' !! other = tasks Sample.store !! other)
    /\ sites s' = sites Sample.store
    /\ clients s' = clients Sample.store
    /\ users s' = users Sample.store
    /\ inventory s' = inventory Sample.store.
Proof.
  apply (deleteTask_only_task Sample.store "task1" Sample.started Sample.admin1).
  reflexivity.
Defined.



(** ** Creation without the snapshot *)

Lemma invalidSectionsById_nil (sections : list string) (site : Site.t) :
  (forall i, i ∈ sections -> is_Some (Site.id i (Site.sections site))) ->
  invalidSectionsById sections site = [].
Proof.
  intros Hall. unfold invalidSectionsById.
  induction sections as [|i rest IH]; [reflexivity|].
  cbn [List.filter].
  destruct (Hall i (list_elem_of_here _ _)) as [sec ->].
  apply IH. intros j Hj. apply Hall, list_elem_of_further, Hj.
Qed.


Lemma pre_save_client (x : Task.t) : Task.client (Task.pre_save x) = Task.client x.
Proof. pre_save_field. Qed.

Lemma pre_save_site (x : Task.t) : Task.site (Task.pre_save x) = Task.site x.
Proof. pre_save_field. Qed.


Lemma createTaskLegacy_run (s : Store) (req : CreateReq.t) (newId siteId : oid)
    (sections : list string) (d : date) (site : Site.t) :
  CreateReq.site req = Some siteId ->
  CreateReq.sections req = Some sections ->
  sections <> [] ->
  sites s !! siteId = Some site ->
  (forall i, i ∈ sections -> is_Some (Site.id i (Site.sections site))) ->
  (forall c, CreateReq.client req = Some c -> ObjectId_isValid c = true) ->
  CreateReq.scheduledDate req = Some d ->
  let clientId := default (Site.client site) (CreateReq.client req) in
  let task :=
    Task.pre_save
      (Task.mk siteId sections clientId (CreateReq.worker req) pending d 0
               None None (Images.mk [] []) []
               (default [] (CreateReq.materials req)) (Cost.mk 0 0 0)
               None None None) in
  createTaskLegacy None req newId s
  = (ok 201 "Task created successfully" (TaskData task),
     mkStore (<[newId := task]> (tasks s))
             (alter Site_incTotal siteId (sites s))
             (alter Client_incTotal clientId (clients s))
             (users s) (inventory s)).
Proof.
  intros Hsite Hsecs Hne Hfind Hall Hclient Hdate clientId task.
  unfold createTaskLegacy. rewrite Hsite, Hsecs.
  destruct sections as [|i0 rest]; [congruence|].
  unfold handler. unfold mbind at 1, M_bind at 1, gets. rewrite Hfind.
  rewrite (invalidSectionsById_nil _ _ Hall). cbn [length].
  rewrite bool_decide_eq_false_2 by lia.
  assert (match CreateReq.client req with
          | Some c => negb (ObjectId_isValid c)
          | None => false
          end = false) as ->.
  { destruct (CreateReq.client req) as [c|]; [|reflexivity].
    rewrite (Hclient c eq_refl). reflexivity. }
  rewrite Hdate. run_handler. rewrite lookup_insert_eq.
  rewrite pre_save_client, pre_save_site. reflexivity.
Qed.





(** X13. Deleting a task that the counting creation made gives the task
    collection back as it was (for a fresh id), but not the counters:
    the site's and the client's [totalTasks] stay one higher. *)
Theorem legacy_create_then_delete (s : Store) (req : CreateReq.t)
    (newId siteId : oid) (sections : list string) (d : date) (site : Site.t) :
  CreateReq.site req = Some siteId ->
  CreateReq.sections req = Some sections ->
  sections <> [] ->
  sites s !! siteId = Some site ->
  (forall i, i ∈ sections -> is_Some (Site.id i (Site.sections site))) ->
  (forall c, CreateReq.client req = Some c -> ObjectId_isValid c = true) ->
  CreateReq.scheduledDate req = Some d ->
  tasks s !! newId = None ->
  let s2 := snd (deleteTask newId (snd (createTaskLegacy None req newId s))) in
  tasks s2 = tasks s
  /\ (Site.totalTasks <$> sites s2 !! siteId) = Some (Site.totalTasks site + 1)%Z
  /\ clients s2
     = alter Client_incTotal
             (default (Site.client site) (CreateReq.client req)) (clients s).
Proof.
  intros Hsite Hsecs Hne Hfind Hall Hclient Hdate Hfresh s2. subst s2.
  rewrite (createTaskLegacy_run s req newId siteId sections d site
             Hsite Hsecs Hne Hfind Hall Hclient Hdate).
  cbn [snd]. erewrite deleteTask_run by (cbn; apply lookup_insert_eq).
  cbn [snd on_tasks tasks sites clients].
  split; [apply delete_insert_id; assumption|].
  split; [rewrite lookup_alter_eq, Hfind; reflexivity|reflexivity].
Qed.

Lemma legacy_create_then_delete_witness :
  let s2 := snd (deleteTask "task9"
                   (snd (createTaskLegacy None (Sample.request ["secA"])
                           "task9" Sample.store))) in
  tasks s2 = tasks Sample.store
  /\ (Site.totalTasks <$> sites s2 !! "site1") = Some (5 + 1)%Z
  /\ clients s2
     = alter Client_incTotal "client000001" (clients Sample.store).
Proof.
  apply (legacy_create_then_delete Sample.store (Sample.request ["secA"])
           "task9" "site1" ["secA"] 86400000 Sample.site1);
    try reflexivity.
  - discriminate.
  - intros i Hi. apply (bool_decide_unpack _).
    apply elem_of_cons in Hi as [-> | Hi]; [vm_compute; exact I|].
    apply elem_of_nil in Hi. destruct Hi.
  - intros c [= <-]. reflexivity.
Defined.

(** ** The other branches of the generic update *)

Lemma propagate_run (st : TaskStatus) (taskId : oid) (task : Task.t)
    (now : date) (siteDoc : Site.t) (s : Store) :
  sites s !! Task.site task = Some siteDoc ->
  propagate st taskId task now s
  = (inr tt,
     on_sites (insert (Task.site task)
                 (stampSections st taskId now (Task.sections task) siteDoc)) s).
Proof.
  intros Hsite. unfold propagate, mbind, M_bind, gets. rewrite Hsite.
  rewrite (updateSections_run _ _ _ _ _ _ _ Hsite). reflexivity.
Qed.

Lemma no_assignment (body : Body.t) (task : Task.t) :
  Body.worker body = None \/ Task.worker task <> None ->
  bool_decide (is_Some (Body.worker body))
  && bool_decide (Task.worker task = None) = false.
Proof.
  intros [Hb|Ht].
  - rewrite Hb. rewrite bool_decide_eq_false_2; [reflexivity|].
    intros [x Hx]. discriminate Hx.
  - rewrite (bool_decide_eq_false_2 _ Ht). apply andb_false_r.
Qed.

(** X14. Marking a task rejected through the generic update, when it was
    not rejected before, writes the rejected summary (status, date, task
    id) on every section the task references and the site has, and sets
    the task's status; no counter of the site, the client or a user
    moves and [lastVisit] is not touched. *)
Theorem updateTask_rejection (s : Store) (user : Principal) (taskId : oid)
    (task : Task.t) (body : Body.t) (now : date) (siteDoc : Site.t) :
  tasks s !! taskId = Some task ->
  (role user = worker -> Task.worker task = Some (id user)) ->
  Body.status body = Some rejected ->
  Task.status task <> rejected ->
  Body.worker body = None \/ Task.worker task <> None ->
  sites s !! Task.site task = Some siteDoc ->
  exists task' s' site',
    updateTask user taskId body now s
    = (ok 200 "Task updated successfully" (TaskData task'), s')
    /\ tasks s' !! taskId = Some task'
    /\ Task.status task' = rejected
    /\ clients s' = clients s
    /\ users s' = users s
    /\ inventory s' = inventory s
    /\ sites s' = <[Task.site task := site']> (sites s)
    /\ Site.completedTasks site' = Site.completedTasks siteDoc
    /\ Site.totalTasks site' = Site.totalTasks siteDoc
    /\ Site.lastVisit site' = Site.lastVisit siteDoc
    /\ (forall i, i ∈ Task.sections task ->
        Site.id i (Site.sections site')
        = Section.set_lastTask rejected now taskId
            <$> Site.id i (Site.sections siteDoc))
    /\ (forall i, i ∉ Task.sections task ->
        Site.id i (Site.sections site') = Site.id i (Site.sections siteDoc)).
Proof.
  intros Hfind Hauth Hbody Hstatus Hassign Hsite.
  unfold updateTask, handler.
  unfold mbind at 1, M_bind at 1, gets. rewrite Hfind.
  rewrite (worker_may user task Hauth), (no_assignment body task Hassign).
  unfold mbind, M_bind, mret, M_ret.
  rewrite Hbody, (bool_decide_eq_false_2 (Some rejected = Some completed))
    by discriminate.
  cbn [andb]. rewrite Hbody.
  rewrite (bool_decide_eq_true_2 (Some rejected = Some rejected)) by reflexivity.
  rewrite (bool_decide_eq_false_2 _ Hstatus). cbn [negb andb].
  rewrite (propagate_run rejected taskId task now siteDoc s Hsite).
  unfold modify. eexists _, _, _. split; [reflexivity|].
  cbn [on_tasks on_sites tasks sites clients users inventory].
  split; [apply lookup_insert_eq|].
  split; [cbn; rewrite Hbody; reflexivity|].
  do 4 (split; [reflexivity|]).
  destruct (stampSections_counters rejected taskId now (Task.sections task)
              siteDoc) as (Hc & Ht & Hv & _).
  do 3 (split; [assumption|]).
  split; intros i Hi; rewrite stampSections_id.
  - rewrite (bool_decide_eq_true_2 _ Hi). reflexivity.
  - rewrite (bool_decide_eq_false_2 _ Hi). reflexivity.
Qed.

Lemma updateTask_rejection_witness :
  exists task' s' site',
    updateTask Sample.admin1 "task1" (Body.set_status (Some rejected) Body.empty)
               7200000 Sample.store
    = (ok 200 "Task updated successfully" (TaskData task'), s')
    /\ Task.status task' = rejected
    /\ clients s' = clients Sample.store
    /\ users s' = users Sample.store
    /\ sites s' = <["site1" := site']> (sites Sample.store)
    /\ Site.completedTasks site' = 2%Z
    /\ map Section.lastTaskStatus (Site.sections site')
       = [Some rejected; Some rejected].
Proof.
  destruct (updateTask_rejection Sample.store Sample.admin1 "task1"
              Sample.started (Body.set_status (Some rejected) Body.empty)
              7200000 Sample.site1 eq_refl)
    as (task' & s' & site' & Hrun & _ & Hst & Hcl & Hus & _ & Hsites & Hc & _
        & _ & _ & _).
  - discriminate.
  - reflexivity.
  - discriminate.
  - left. reflexivity.
  - reflexivity.
  - exists task', s', site'.
    split; [exact Hrun|]. split; [exact Hst|]. split; [exact Hcl|].
    split; [exact Hus|]. split; [exact Hsites|]. split; [exact Hc|].
    vm_compute in Hrun. injection Hrun as _ Hs'. subst s'.
    apply (f_equal (fun m : gmap oid Site.t => m !! "site1")) in Hsites.
    rewrite lookup_insert_eq in Hsites. vm_compute in Hsites.
    injection Hsites as <-. reflexivity.
Defined.

Lemma updateTask_completion_cascade_witness :
  exists task' s' site',
    updateTask Sample.worker1 "task1" (Body.set_status (Some completed) Body.empty)
               7200000 Sample.store
    = (ok 200 "Task updated successfully" (TaskData task'), s')
    /\ tasks s' !! "task1" = Some task'
    /\ Task.status task' = completed
    /\ Task.completedAt task' = Some 7200000%Z
    /\ clients s'
       = alter Client.incCompleted "client000001" (clients Sample.store)
    /\ users s' = alter User.incCompleted "worker1" (users Sample.store)
    /\ sites s' = <["site1" := site']> (sites Sample.store)
    /\ Site.completedTasks site' = (2 + 1)%Z
    /\ Site.lastVisit site' = Some 7200000%Z
    /\ (forall i, i ∈ ["secA"; "secB"] ->
        Site.id i (Site.sections site')
        = Section.set_lastTask completed 7200000 "task1"
            <$> Site.id i (Site.sections Sample.site1)).
Proof.
  apply (updateTask_completion_cascade Sample.store Sample.worker1 "task1"
           Sample.started (Body.set_status (Some completed) Body.empty)
           7200000 Sample.site1).
  - reflexivity.
  - intros _. reflexivity.
  - reflexivity.
  - discriminate.
  - left. reflexivity.
  - reflexivity.
Defined.

(** X16. Sending status completed through the generic update for a task
    that is already completed is accepted but counts nothing again: the
    sites, clients, users and inventory are left as they are, and
    [completedAt] is kept unless the body itself carries one. *)
Theorem updateTask_recomplete (s : Store) (user : Principal) (taskId : oid)
    (task : Task.t) (body : Body.t) (now : date) :
  tasks s !! taskId = Some task ->
  (role user = worker -> Task.worker task = Some (id user)) ->
  Body.status body = Some completed ->
  Task.status task = completed ->
  Body.worker body = None \/ Task.worker task <> None ->
  exists task',
    updateTask user taskId body now s
    = (ok 200 "Task updated successfully" (TaskData task'),
       on_tasks (insert taskId task') s)
    /\ Task.status task' = completed
    /\ (Body.completedAt body = None ->
        Task.completedAt task' = Task.completedAt task).
Proof.
  intros Hfind Hauth Hbody Hstatus Hassign.
  unfold updateTask, handler.
  unfold mbind at 1, M_bind at 1, gets. rewrite Hfind.
  rewrite (worker_may user task Hauth), (no_assignment body task Hassign).
  unfold mbind, M_bind, mret, M_ret.
  rewrite Hbody, (bool_decide_eq_true_2 (Task.status task = completed))
    by assumption.
  rewrite andb_false_r.
  rewrite Hbody, (bool_decide_eq_false_2 (Some completed = Some rejected))
    by discriminate.
  cbn [andb]. unfold modify. eexists. split; [reflexivity|].
  split; [cbn; rewrite Hbody; reflexivity|].
  intros Hnone. cbn. rewrite Hnone. reflexivity.
Qed.

Lemma updateTask_recomplete_witness :
  exists task',
    updateTask Sample.admin1 "task4" (Body.set_status (Some completed) Body.empty)
               9000000 Sample.store
    = (ok 200 "Task updated successfully" (TaskData task'),
       on_tasks (insert "task4" task') Sample.store)
    /\ Task.status task' = completed
    /\ (Body.completedAt (Body.set_status (Some completed) Body.empty) = None ->
        Task.completedAt task' = Task.completedAt Sample.rated).
Proof.
  apply (updateTask_recomplete Sample.store Sample.admin1 "task4" Sample.rated
           (Body.set_status (Some completed) Body.empty) 9000000).
  - reflexivity.
  - discriminate.
  - reflexivity.
  - reflexivity.
  - left. reflexivity.
Defined.

(** X17. A first assignment through the generic update whose materials
    are all in stock deducts each of them, gives the task the worker and
    forces its status to assigned, whatever status the body asked for:
    even a body saying completed starts no completion cascade, so the
    sites, clients and users are left as they are. *)
Theorem updateTask_first_assignment (s s1 : Store) (user : Principal)
    (taskId : oid) (task : Task.t) (body : Body.t) (now : date) (w : oid) :
  tasks s !! taskId = Some task ->
  role user <> worker ->
  Body.worker body = Some w ->
  Task.worker task = None ->
  forEach deductMaterial (Task.materials task) s = (inr tt, s1) ->
  exists task',
    updateTask user taskId body now s
    = (ok 200 "Task updated successfully" (TaskData task'),
       on_tasks (insert taskId task') s1)
    /\ Task.worker task' = Some w
    /\ Task.status task' = assigned
    /\ Task.completedAt task'
       = match Body.completedAt body with
         | Some d => Some d
         | None => Task.completedAt task
         end
    /\ same_documents s s1.
Proof.
  intros Hfind Hrole Hbody Hnone Hloop.
  pose proof (forEach_deduct_frame (Task.materials task) s) as Hframe.
  rewrite Hloop in Hframe. cbn in Hframe.
  unfold updateTask, handler.
  unfold mbind at 1, M_bind at 1, gets. rewrite Hfind.
  rewrite (bool_decide_eq_false_2 _ Hrole). cbn [andb].
  rewrite Hbody, (bool_decide_eq_true_2 (is_Some (Some w))) by eauto.
  rewrite (bool_decide_eq_true_2 _ Hnone). cbn [andb].
  unfold mbind, M_bind, mret, M_ret. rewrite Hloop.
  cbn [Body.status Body.set_status].
  rewrite (bool_decide_eq_false_2 (Some assigned = Some completed))
    by discriminate.
  cbn [andb Body.status Body.set_status].
  rewrite (bool_decide_eq_false_2 (Some assigned = Some rejected))
    by discriminate.
  cbn [andb]. unfold modify. eexists. split; [reflexivity|].
  cbn. rewrite Hbody. repeat split; apply Hframe.
Qed.

Lemma updateTask_first_assignment_witness :
  let body := Body.mk (Some "worker1") (Some completed) None None None None in
  let s1 := snd (forEach deductMaterial (Task.materials seeding)
                   storeWithSeeding) in
  exists task',
    updateTask Sample.admin1 "task5" body 5000 storeWithSeeding
    = (ok 200 "Task updated successfully" (TaskData task'),
       on_tasks (insert "task5" task') s1)
    /\ Task.worker task' = Some "worker1"
    /\ Task.status task' = assigned
    /\ (Inventory.current <$> inventory s1 !! "seed") = Some 6%Q
    /\ clients s1 = clients Sample.store.
Proof.
  intros body s1.
  destruct (updateTask_first_assignment storeWithSeeding s1 Sample.admin1
              "task5" seeding body 5000 "worker1")
    as (task' & Hrun & Hw & Hst & _ & _).
  - reflexivity.
  - discriminate.
  - reflexivity.
  - reflexivity.
  - reflexivity.
  - exists task'. split; [exact Hrun|]. split; [exact Hw|].
    split; [exact Hst|]. split; reflexivity.
Defined.

(** X18. The generic update answers 404 for an unknown task and 403 for
    a caller of role worker who is not the task's worker (also when the
    task has no worker yet); in both cases nothing is written, whatever
    the body asks for. *)
Theorem updateTask_denied (s : Store) (user : Principal) (taskId : oid)
    (body : Body.t) (now : date) :
  (tasks s !! taskId = None ->
   updateTask user taskId body now s = (reject 404 "Task not found", s))
  /\ (forall task,
        tasks s !! taskId = Some task ->
        role user = worker ->
        Task.worker task <> Some (id user) ->
        updateTask user taskId body now s
        = (reject 403 "Not authorized to update this task", s)).
Proof.
  split.
  - intros Hnone. unfold updateTask. run_handler. rewrite Hnone. reflexivity.
  - intros task Hfind Hw Hne. unfold updateTask, handler.
    unfold mbind at 1, M_bind at 1, gets. rewrite Hfind.
    rewrite (worker_may_not user task Hw Hne). reflexivity.
Qed.

Lemma updateTask_denied_witness :
  updateTask Sample.worker1 "nope" Body.empty 1 Sample.store
  = (reject 404 "Task not found", Sample.store)
  /\ updateTask Sample.worker1 "task2"
       (Body.mk (Some "worker1") None None None None None) 1 Sample.store
     = (reject 403 "Not authorized to update this task", Sample.store).
Proof.
  split.
  - apply (updateTask_denied Sample.store Sample.worker1 "nope" Body.empty 1).
    reflexivity.
  - apply (updateTask_denied Sample.store Sample.worker1 "task2"
             (Body.mk (Some "worker1") None None None None None) 1)
      with (task := Sample.unassigned);
      [reflexivity|reflexivity|discriminate].
Defined.

(** ** What every saving controller leaves behind *)




(** ** Stock *)


Lemma validate_inr (i i' : Inventory.t) :
  Inventory.validate i = inr i' -> i' = i /\ (0 <= Inventory.current i)%Q.
Proof.
  unfold Inventory.validate.
  destruct (Qle_bool 0 (Inventory.current i)) eqn:E; [|discriminate].
  intros [= <-]. split; [reflexivity|]. apply Qle_bool_iff. exact E.
Qed.

(** X20. Whatever the amount and its sign, a deduct or a restock that
    goes through leaves a current stock that is not negative; a restock
    that would take the stock below zero is refused by the validator
    and writes nothing. *)
Theorem stock_never_negative (s : Store) (itemId : oid) (doc : Inventory.t)
    (q : number) :
  (forall doc' s', Inventory_deduct itemId doc q s = (inr doc', s') ->
     (0 <= Inventory.current doc')%Q /\ inventory s' !! itemId = Some doc')
  /\ (forall doc' s', Inventory_restock itemId doc q s = (inr doc', s') ->
        (0 <= Inventory.current doc')%Q /\ inventory s' !! itemId = Some doc')
  /\ ((Inventory.current doc + q < 0)%Q ->
      Inventory_restock itemId doc q s
      = (inl (ValidationError "quantity.current"), s)).
Proof.
  split; [|split].
  - intros doc' s'. unfold Inventory_deduct, mbind, M_bind, lift, modify,
      mret, M_ret, Inventory.deduct.
    destruct (Qltb (Inventory.current doc) q); [discriminate|].
    destruct (Inventory.validate _) as [e|d] eqn:E; [discriminate|].
    intros [= <- <-]. apply validate_inr in E as [-> E].
    split; [exact E|apply lookup_insert_eq].
  - intros doc' s'. unfold Inventory_restock, mbind, M_bind, lift, modify,
      mret, M_ret, Inventory_restockDoc.
    destruct (Inventory.validate _) as [e|d] eqn:E; [discriminate|].
    intros [= <- <-]. apply validate_inr in E as [-> E].
    split; [exact E|apply lookup_insert_eq].
  - intros Hneg. unfold Inventory_restock, mbind, M_bind, lift,
      Inventory_restockDoc, Inventory.validate. cbn.
    destruct (Qle_bool 0 (Inventory.current doc + q)) eqn:E; [|reflexivity].
    apply Qle_bool_iff in E. lra.
Qed.

Lemma stock_never_negative_witness :
  (exists doc' s',
     Inventory_deduct "seed" Sample.seed (-3) Sample.store = (inr doc', s')
     /\ (0 <= Inventory.current doc')%Q /\ inventory s' !! "seed" = Some doc')
  /\ (exists doc' s',
        Inventory_restock "seed" Sample.seed (-3) Sample.store = (inr doc', s')
        /\ (0 <= Inventory.current doc')%Q /\ inventory s' !! "seed" = Some doc')
  /\ Inventory_restock "fert" Sample.fertilizer (-5) Sample.store
     = (inl (ValidationError "quantity.current"), Sample.store).
Proof.
  destruct (stock_never_negative Sample.store "seed" Sample.seed (-3))
    as (Hdeduct & Hrestock & _).
  destruct (stock_never_negative Sample.store "fert" Sample.fertilizer (-5))
    as (_ & _ & Hrefused).
  split; [|split].
  - eexists _, _. split; [reflexivity|]. apply Hdeduct. reflexivity.
  - eexists _, _. split; [reflexivity|]. apply Hrestock. reflexivity.
  - apply Hrefused. unfold Qlt; simpl; lia.
Defined.





(** ** Deleting a section reference image or a feedback image *)

Lemma spliceFirst_middle (imageId : string) (pre post : list RefImage.t)
    (img : RefImage.t) :
  RefImage._id img = imageId ->
  imageId ∉ map RefImage._id pre ->
  spliceFirst imageId (pre ++ img :: post) = Some (pre ++ post).
Proof.
  intros Himg. induction pre as [|b pre IH]; intros Hpre; cbn.
  - rewrite (bool_decide_eq_true_2 _ Himg). reflexivity.
  - cbn in Hpre. apply not_elem_of_cons in Hpre as [Hb Hpre].
    rewrite bool_decide_eq_false_2 by congruence.
    rewrite (IH Hpre). reflexivity.
Qed.

Lemma spliceFirst_None (imageId : string) (l : list RefImage.t) :
  imageId ∉ map RefImage._id l -> spliceFirst imageId l = None.
Proof.
  induction l as [|b l IH]; intros Hl; cbn; [reflexivity|].
  cbn in Hl. apply not_elem_of_cons in Hl as [Hb Hl].
  rewrite bool_decide_eq_false_2 by congruence.
  rewrite (IH Hl). reflexivity.
Qed.

Lemma deleteSectionImage_run (s : Store) (siteId sectionId imageId : string)
    (site : Site.t) (sec : Section.t) (pre post : list RefImage.t)
    (img : RefImage.t) :
  sites s !! siteId = Some site ->
  Site.id sectionId (Site.sections site) = Some sec ->
  Section.referenceImages sec = pre ++ img :: post ->
  RefImage._id img = imageId ->
  imageId ∉ map RefImage._id pre ->
  deleteSectionImage siteId sectionId imageId s
  = ((true, "Section reference image deleted"),
     on_sites
       (insert siteId
          (Site.set_sections
             (Site.update_id sectionId
                (Section.set_referenceImages (pre ++ post))
                (Site.sections site)) site)) s).
Proof.
  intros Hsite Hsec Hrefs Himg Hpre. unfold deleteSectionImage.
  rewrite Hsite, Hsec, Hrefs, (spliceFirst_middle _ _ _ _ Himg Hpre).
  reflexivity.
Qed.

(** X23. Deleting a section reference image removes, from the first
    section of the site carrying the section id, the first image
    carrying the image id, keeping the other images in order; every
    other section, the site's counters and all tasks are left as they
    are.  A call that reports failure has written nothing. *)
Theorem deleteSectionImage_removes_first (s : Store)
    (siteId sectionId imageId : string) (site : Site.t) (sec : Section.t)
    (pre post : list RefImage.t) (img : RefImage.t) :
  sites s !! siteId = Some site ->
  Site.id sectionId (Site.sections site) = Some sec ->
  Section.referenceImages sec = pre ++ img :: post ->
  RefImage._id img = imageId ->
  imageId ∉ map RefImage._id pre ->
  (exists site' s',
     deleteSectionImage siteId sectionId imageId s
     = ((true, "Section reference image deleted"), s')
     /\ sites s' = <[siteId := site']> (sites s)
     /\ Site.id sectionId (Site.sections site')
        = Some (Section.set_referenceImages (pre ++ post) sec)
     /\ (forall other, other <> sectionId ->
         Site.id other (Site.sections site')
         = Site.id other (Site.sections site))
     /\ Site.totalTasks site' = Site.totalTasks site
     /\ Site.completedTasks site' = Site.completedTasks site
     /\ tasks s' = tasks s)
  /\ (forall siteId' sectionId' imageId',
        fst (fst (deleteSectionImage siteId' sectionId' imageId' s)) = false ->
        snd (deleteSectionImage siteId' sectionId' imageId' s) = s).
Proof.
  intros Hsite Hsec Hrefs Himg Hpre. split.
  - eexists _, _. split; [eapply deleteSectionImage_run; eassumption|].
    cbn [on_sites sites tasks Site.sections Site.set_sections
         Site.totalTasks Site.completedTasks].
    split; [reflexivity|].
    cbn [Site.sections Site.set_sections Site.totalTasks Site.completedTasks].
    split; [|split; [|repeat split]].
    + rewrite id_update_id by reflexivity.
      rewrite bool_decide_eq_true_2 by reflexivity. rewrite Hsec. reflexivity.
    + intros other Hne. rewrite id_update_id by reflexivity.
      rewrite bool_decide_eq_false_2 by assumption. reflexivity.
  - intros siteId' sectionId' imageId'. unfold deleteSectionImage.
    repeat (case_match; simplify_eq/=; try done).
Qed.

Lemma deleteSectionImage_removes_first_witness :
  (exists site' s',
     deleteSectionImage "site1" "secA" "ra1" Sample.store
     = ((true, "Section reference image deleted"), s')
     /\ Site.id "secA" (Site.sections site')
        = Some (Section.set_referenceImages [] Sample.secA)
     /\ Site.id "secB" (Site.sections site') = Some Sample.secB
     /\ tasks s' = tasks Sample.store)
  /\ snd (deleteSectionImage "site1" "secA" "rb1" Sample.store) = Sample.store.
Proof.
  destruct (deleteSectionImage_removes_first Sample.store "site1" "secA" "ra1"
              Sample.site1 Sample.secA [] [] Sample.imgA
              eq_refl eq_refl eq_refl eq_refl)
    as [(site' & s' & Hrun & _ & HA & Hother & _ & _ & Ht) Hfail].
  - apply not_elem_of_nil.
  - split.
    + exists site', s'. split; [exact Hrun|]. split; [exact HA|].
      split; [|exact Ht]. rewrite Hother by discriminate. reflexivity.
    + apply Hfail. reflexivity.
Defined.

(** X24. When the image ids of a section are pairwise distinct, a
    deleted reference image is gone: asking to delete it again fails
    with "Reference image not found" and changes nothing. *)
Theorem deleteSectionImage_twice (s : Store) (siteId sectionId imageId : string)
    (site : Site.t) (sec : Section.t) :
  sites s !! siteId = Some site ->
  Site.id sectionId (Site.sections site) = Some sec ->
  NoDup (map RefImage._id (Section.referenceImages sec)) ->
  imageId ∈ map RefImage._id (Section.referenceImages sec) ->
  let first := deleteSectionImage siteId sectionId imageId s in
  fst first = (true, "Section reference image deleted")
  /\ deleteSectionImage siteId sectionId imageId (snd first)
     = ((false, "Reference image not found"), snd first).
Proof.
  intros Hsite Hsec Hnodup Hin first.
  assert (exists pre img post,
            Section.referenceImages sec = pre ++ img :: post
            /\ RefImage._id img = imageId
            /\ (imageId ∉ map RefImage._id pre)
            /\ (imageId ∉ map RefImage._id post))
    as (pre & img & post & Hrefs & Himg & Hpre & Hpost).
  { revert Hnodup Hin. generalize (Section.referenceImages sec).
    induction l as [|b l IH]; cbn; intros Hnodup Hin.
    - apply elem_of_nil in Hin. destruct Hin.
    - apply NoDup_cons in Hnodup as [Hb Hnodup].
      destruct (decide (RefImage._id b = imageId)) as [Heq|Hne].
      + exists [], b, l. repeat split; [assumption|apply not_elem_of_nil|].
        rewrite <- Heq. exact Hb.
      + apply elem_of_cons in Hin as [Hin|Hin]; [congruence|].
        destruct (IH Hnodup Hin) as (pre & img & post & -> & Himg & Hpre & Hpost).
        exists (b :: pre), img, post. repeat split; try assumption.
        cbn. apply not_elem_of_cons. split; [congruence|assumption]. }
  subst first.
  rewrite (deleteSectionImage_run s siteId sectionId imageId site sec pre post
             img Hsite Hsec Hrefs Himg Hpre).
  cbn [fst snd]. split; [reflexivity|].
  unfold deleteSectionImage. cbn [on_sites sites].
  rewrite lookup_insert_eq. cbn [Site.sections Site.set_sections].
  rewrite id_update_id by reflexivity.
  rewrite bool_decide_eq_true_2 by reflexivity. rewrite Hsec.
  cbn [fmap option_fmap option_map Section.referenceImages
       Section.set_referenceImages].
  rewrite spliceFirst_None; [reflexivity|].
  rewrite map_app. intros H. apply elem_of_app in H as [H|H]; contradiction.
Qed.

Lemma deleteSectionImage_twice_witness :
  let first := deleteSectionImage "site1" "secB" "rb1" Sample.store in
  fst first = (true, "Section reference image deleted")
  /\ deleteSectionImage "site1" "secB" "rb1" (snd first)
     = ((false, "Reference image not found"), snd first).
Proof.
  apply (deleteSectionImage_twice Sample.store "site1" "secB" "rb1"
           Sample.site1 Sample.secB).
  - reflexivity.
  - reflexivity.
  - cbn. apply NoDup_singleton.
  - cbn. apply list_elem_of_here.
Defined.

(** X25. Deleting a feedback image clears the image and its storage id
    and keeps the rating, the comment, the image number, the date and
    the satisfied flag; asked again, it fails with "No feedback image
    found" and changes nothing. *)
Theorem deleteFeedbackImage_clears_image (s : Store) (taskId : string)
    (task : Task.t) (f : Feedback.t) :
  tasks s !! taskId = Some task ->
  Task.feedback task = Some f ->
  truthy (Feedback.image f) = true ->
  exists task' s',
    deleteFeedbackImage taskId s = ((true, "Feedback image deleted"), s')
    /\ tasks s' !! taskId = Some task'
    /\ Task.feedback task'
       = Some (Feedback.mk (Feedback.rating f) (Feedback.comment f)
                           (Feedback.imageNumber f) None None
                           (Feedback.submittedAt f) (Feedback.isSatisfiedOnly f))
    /\ Task.status task' = Task.status task
    /\ deleteFeedbackImage taskId s' = ((false, "No feedback image found"), s').
Proof.
  intros Hfind Hf Himg. eexists _, _. split.
  - unfold deleteFeedbackImage. rewrite Hfind, Hf, Himg. reflexivity.
  - cbn [on_tasks tasks]. split; [apply lookup_insert_eq|].
    rewrite pre_save_feedback, pre_save_status. split; [reflexivity|].
    split; [reflexivity|].
    unfold deleteFeedbackImage. cbn [on_tasks tasks]. rewrite lookup_insert_eq.
    rewrite pre_save_feedback. reflexivity.
Qed.

Lemma deleteFeedbackImage_clears_image_witness :
  exists task' s',
    deleteFeedbackImage "task4" Sample.store
    = ((true, "Feedback image deleted"), s')
    /\ tasks s' !! "task4" = Some task'
    /\ Task.feedback task'
       = Some (Feedback.mk 2 "Edges were missed" None None None 4000000 false)
    /\ deleteFeedbackImage "task4" s' = ((false, "No feedback image found"), s').
Proof.
  destruct (deleteFeedbackImage_clears_image Sample.store "task4" Sample.rated
              (Feedback.mk 2 "Edges were missed" None
                           (Some "https://cdn/f1.jpg") (Some "feedback/f1")
                           4000000 false) eq_refl eq_refl eq_refl)
    as (task' & s' & Hrun & Hstored & Hf & _ & Hagain).
  exists task', s'. repeat split; assumption.
Defined.

(** ** Routes *)

(** X26. Behind their [authorize('admin')] guard, the assign, delete,
    create, single and bulk visibility routes answer a caller of any
    other role with 403 naming the role, and the store is left as it
    is; the image deletion route does the same to a client. *)
Theorem admin_only_routes (s : Store) (user : Principal) :
  role user <> admin ->
  let refusal :=
    reject 403 ("User role '" +:+ roleName (role user)
                  +:+ "' is not authorized to access this route") in
  (forall taskId workerId notification,
     route_assign user taskId workerId notification s = (refusal, s))
  /\ (forall taskId, route_delete user taskId s = (refusal, s))
  /\ (forall req newId, route_create user req newId s = (refusal, s))
  /\ (forall taskId imageId imageType,
        route_toggle user taskId imageId imageType s = ((refusal, None), s))
  /\ (forall taskId imageIds imageType isVisible,
        route_bulk user taskId imageIds imageType isVisible s = (refusal, s))
  /\ (role user = client ->
      forall taskId imageId imageType,
        route_deleteImage user taskId imageId imageType s = ((refusal, []), s)).
Proof.
  intros Hrole refusal.
  assert (Hadmin : authorize [admin] (Some user) = Some refusal).
  { unfold authorize. rewrite bool_decide_eq_false_2; [reflexivity|].
    intros Hin. apply list_elem_of_singleton in Hin. contradiction. }
  repeat split; intros;
    try (unfold route_assign, route_delete, route_create, route_toggle,
           route_bulk, guarded; rewrite Hadmin; reflexivity).
  unfold route_deleteImage, guarded, authorize.
  rewrite bool_decide_eq_false_2; [reflexivity|].
  match goal with H : role user = client |- _ => rewrite H end.
  intros Hin. apply elem_of_cons in Hin as [Hin|Hin]; [discriminate|].
  apply list_elem_of_singleton in Hin. discriminate.
Qed.

Lemma admin_only_routes_witness :
  route_assign Sample.worker1 "task2" "worker1" None Sample.store
  = (reject 403 "User role 'worker' is not authorized to access this route",
     Sample.store)
  /\ route_delete Sample.worker1 "task1" Sample.store
     = (reject 403 "User role 'worker' is not authorized to access this route",
        Sample.store)
  /\ route_deleteImage Sample.client1 "task1" "img1" "before" Sample.store
     = ((reject 403 "User role 'client' is not authorized to access this route",
         []), Sample.store).
Proof.
  destruct (admin_only_routes Sample.store Sample.worker1 ltac:(discriminate))
    as (Hassign & Hdelete & _).
  destruct (admin_only_routes Sample.store Sample.client1 ltac:(discriminate))
    as (_ & _ & _ & _ & _ & Himage).
  split; [apply Hassign|]. split; [apply Hdelete|].
  apply Himage. reflexivity.
Defined.

(** ** Deleting a section *)

Lemma find_filter_other (i j : oid) (l : list Section.t) :
  j <> i ->
  Site.id j (List.filter (fun sec => negb (bool_decide (Section._id sec = i))) l)
  = Site.id j l.
Proof.
  intros Hne. unfold Site.id. induction l as [|sec l IH]; cbn; [reflexivity|].
  destruct (decide (Section._id sec = i)) as [Hi|Hi].
  - rewrite (bool_decide_eq_true_2 _ Hi). cbn.
    rewrite bool_decide_eq_false_2 by congruence. exact IH.
  - rewrite (bool_decide_eq_false_2 _ Hi). cbn. rewrite IH. reflexivity.
Qed.

Lemma existsb_filter_gone (i : oid) (l : list Section.t) :
  existsb (fun sec => bool_decide (Section._id sec = i))
    (List.filter (fun sec => negb (bool_decide (Section._id sec = i))) l)
  = false.
Proof.
  induction l as [|sec l IH]; cbn; [reflexivity|].
  destruct (decide (Section._id sec = i)) as [Hi|Hi].
  - rewrite (bool_decide_eq_true_2 _ Hi). cbn. exact IH.
  - rewrite (bool_decide_eq_false_2 _ Hi). cbn.
    rewrite (bool_decide_eq_false_2 _ Hi). exact IH.
Qed.

Lemma invalidSections_cons (sections : list string) (siteDoc : Site.t)
    (i : string) :
  i ∈ sections ->
  existsb (fun sec => bool_decide (Section._id sec = i)) (Site.sections siteDoc)
  = false ->
  (0 < length (invalidSections sections siteDoc))%nat.
Proof.
  intros Hin Hnone. unfold invalidSections.
  induction sections as [|j rest IH]; [apply elem_of_nil in Hin; destruct Hin|].
  cbn [List.filter]. apply elem_of_cons in Hin as [<- | Hin].
  - rewrite Hnone. cbn. lia.
  - destruct (negb _); [cbn; lia|apply IH, Hin].
Qed.

(** X27. After [deleteSection], the site has no section with that id
    any more, every other id resolves as before and the counters are
    kept; once the site is saved so, creating a task that names the
    deleted section is answered 404 and writes nothing. *)
Theorem deleteSection_then_create (s : Store) (siteId i : oid) (x : Site.t)
    (req : CreateReq.t) (newId : oid) (sectionIds : list string)
    (clientId workerId : oid) :
  Site.id i (Site.sections (Site_deleteSection i x)) = None
  /\ (forall j, j <> i ->
      Site.id j (Site.sections (Site_deleteSection i x))
      = Site.id j (Site.sections x))
  /\ Site.totalTasks (Site_deleteSection i x) = Site.totalTasks x
  /\ Site.completedTasks (Site_deleteSection i x) = Site.completedTasks x
  /\ (CreateReq.site req = Some siteId ->
      CreateReq.sections req = Some sectionIds ->
      CreateReq.client req = Some clientId ->
      CreateReq.worker req = Some workerId ->
      truthy (CreateReq.title req) = true ->
      truthy (CreateReq.description req) = true ->
      i ∈ sectionIds ->
      let s' := on_sites (insert siteId (Site_deleteSection i x)) s in
      createTask req newId s'
      = (reject 404 "One or more sections not found in this site", s')).
Proof.
  split; [|split; [|split; [|split]]].
  - unfold Site_deleteSection, Site.id. cbn [Site.sections Site.set_sections].
    induction (Site.sections x) as [|sec l IH]; cbn; [reflexivity|].
    destruct (decide (Section._id sec = i)) as [Hi|Hi].
    + rewrite (bool_decide_eq_true_2 _ Hi). cbn. exact IH.
    + rewrite (bool_decide_eq_false_2 _ Hi). cbn.
      rewrite (bool_decide_eq_false_2 _ Hi). exact IH.
  - intros j Hne. apply find_filter_other. assumption.
  - reflexivity.
  - reflexivity.
  - intros Hsite Hsecs Hclient Hworker Htitle Hdesc Hin s'.
    unfold createTask. rewrite Hsite, Hsecs, Hclient, Hworker, Htitle, Hdesc.
    cbn [negb orb]. unfold handler.
    unfold mbind at 1, M_bind at 1, gets. subst s'. cbn [on_sites sites].
    rewrite lookup_insert_eq.
    rewrite bool_decide_eq_true_2; [reflexivity|].
    eapply invalidSections_cons; [exact Hin|].
    apply existsb_filter_gone.
Qed.

Lemma deleteSection_then_create_witness :
  let s' := on_sites (insert "site1" (Site_deleteSection "secA" Sample.site1))
                     Sample.store in
  Site.id "secA" (Site.sections (Site_deleteSection "secA" Sample.site1)) = None
  /\ Site.id "secB" (Site.sections (Site_deleteSection "secA" Sample.site1))
     = Some Sample.secB
  /\ createTask (Sample.request ["secA"; "secB"]) "task9" s'
     = (reject 404 "One or more sections not found in this site", s').
Proof.
  intros s'.
  destruct (deleteSection_then_create Sample.store "site1" "secA" Sample.site1
              (Sample.request ["secA"; "secB"]) "task9" ["secA"; "secB"]
              "client000001" "worker1")
    as (Hgone & Hother & _ & _ & Hcreate).
  split; [exact Hgone|]. split.
  - rewrite Hother by discriminate. reflexivity.
  - apply Hcreate; try reflexivity. apply list_elem_of_here.
Defined.

(** ** Upload filter *)

Lemma image_not_video (mimetype : string) :
  String.prefix "image/" mimetype = true ->
  String.prefix "video/" mimetype = false.
Proof.
  destruct mimetype as [|c rest]; [discriminate|].
  cbn [String.prefix].
  match goal with
  | |- context [Ascii.ascii_dec ?a c] =>
      destruct (Ascii.ascii_dec a c) as [<-|Hi]; [|discriminate]
  end.
  intros _.
  match goal with
  | |- context [Ascii.ascii_dec ?a ?b] =>
      destruct (Ascii.ascii_dec a b) as [Hv|Hv]; [discriminate Hv|reflexivity]
  end.
Qed.

(** X28. Whatever [toLowerCase] does, a file the upload filter lets
    through is uploaded with the resource type its name was checked
    for: either it passed as an image (image mimetype, an image word in
    its name) and goes up as "image" with the image transformations, or
    it passed as a video and goes up as "video" without them.  A file
    whose mimetype is neither image nor video is always refused. *)
Theorem fileFilter_agrees_with_upload (toLowerCase : string -> string)
    (originalname mimetype : string) :
  (fileFilter toLowerCase originalname mimetype = inr tt ->
   (allowedImageTypes (toLowerCase originalname) = true
    /\ String.prefix "image/" mimetype = true
    /\ resourceType mimetype = "image"
    /\ transformed mimetype = true)
   \/ (allowedVideoTypes (toLowerCase originalname) = true
       /\ String.prefix "video/" mimetype = true
       /\ resourceType mimetype = "video"
       /\ transformed mimetype = false))
  /\ (String.prefix "image/" mimetype = false ->
      String.prefix "video/" mimetype = false ->
      fileFilter toLowerCase originalname mimetype
      = inl (Error "Only image and video files are allowed!")).
Proof.
  unfold fileFilter, resourceType, transformed. split.
  - destruct (allowedImageTypes (toLowerCase originalname)) eqn:Ei,
             (String.prefix "image/" mimetype) eqn:Pi; cbn [andb orb].
    + intros _. left. rewrite (image_not_video _ Pi). repeat split.
    + destruct (allowedVideoTypes (toLowerCase originalname)) eqn:Ev,
               (String.prefix "video/" mimetype) eqn:Pv;
        cbn [andb orb]; try discriminate.
      intros _. right. repeat split.
    + destruct (allowedVideoTypes (toLowerCase originalname)) eqn:Ev,
               (String.prefix "video/" mimetype) eqn:Pv;
        cbn [andb orb]; try discriminate.
      intros _. right. repeat split.
    + destruct (allowedVideoTypes (toLowerCase originalname)) eqn:Ev,
               (String.prefix "video/" mimetype) eqn:Pv;
        cbn [andb orb]; try discriminate.
      intros _. right. repeat split.
  - intros -> ->. rewrite !andb_false_r. reflexivity.
Qed.

Lemma fileFilter_agrees_with_upload_witness :
  ((allowedImageTypes "clip.mp4" = true
    /\ String.prefix "image/" "video/mp4" = true
    /\ resourceType "video/mp4" = "image"
    /\ transformed "video/mp4" = true)
   \/ (allowedVideoTypes "clip.mp4" = true
       /\ String.prefix "video/" "video/mp4" = true
       /\ resourceType "video/mp4" = "video"
       /\ transformed "video/mp4" = false))
  /\ fileFilter (fun n => n) "report.png" "application/pdf"
     = inl (Error "Only image and video files are allowed!").
Proof.
  split.
  - apply (fileFilter_agrees_with_upload (fun n => n) "clip.mp4" "video/mp4").
    reflexivity.
  - apply (fileFilter_agrees_with_upload (fun n => n) "report.png"
             "application/pdf"); reflexivity.
Defined.

(** ** Refusals of feedback and of the worker transitions *)

(** X29. On a completed task, a full submission whose rating does not
    parse or lies outside 1..5 fails on save with 500 "Failed to submit
    feedback" and leaves the stored feedback as it was; a caller of role
    client who is not the task's client is answered 403 by both entry
    points, nothing being written. *)
Theorem feedback_refused_on_completed (s : Store) (user : Principal)
    (taskId : oid) (task : Task.t) (now : date) :
  tasks s !! taskId = Some task ->
  Task.status task = completed ->
  ((role user = client -> Task.client task = id user) ->
   forall rating comment imageNumber file,
     rating = NaN \/ (exists r, rating = Int r /\ (r < 1 \/ 5 < r)%Z) ->
     submitFeedback user taskId rating comment imageNumber file now s
     = (mkResponse 500 false "Failed to submit feedback"
                   (Some (ValidationError "feedback.rating")) NoData, s))
  /\ (role user = client -> Task.client task <> id user ->
      (forall rating comment imageNumber file,
         submitFeedback user taskId rating comment imageNumber file now s
         = (reject 403 "Not authorized to feedback this task", s))
      /\ markSatisfied user taskId now s = (reject 403 "Not authorized", s)).
Proof.
  intros Hfind Hstatus. split.
  - intros Hauth rating comment imageNumber file Hbad.
    unfold submitFeedback, handler.
    unfold mbind at 1, M_bind at 1, gets. rewrite Hfind.
    rewrite (bool_decide_eq_true_2 _ Hstatus). cbn [negb].
    rewrite (feedback_auth user task Hauth).
    destruct (match file with
              | Some f =>
                  if truthy (FeedbackFile.cloudinaryUrl f)
                  then (FeedbackFile.cloudinaryUrl f, FeedbackFile.cloudinaryId f)
                  else (None, None)
              | None => (None, None)
              end) as [image cid].
    unfold mbind, M_bind, lift, castFeedback.
    destruct Hbad as [-> | (r & -> & Hr)]; [reflexivity|].
    assert (negb ((1 <=? r)%Z && (r <=? 5)%Z) = true) as ->; [|reflexivity].
    apply negb_true_iff, andb_false_iff.
    destruct Hr as [Hr|Hr]; [left|right]; apply Z.leb_gt; exact Hr.
  - intros Hrole Hne.
    assert (Hdeny : bool_decide (role user = client)
                    && negb (bool_decide (Task.client task = id user)) = true).
    { rewrite (bool_decide_eq_true_2 _ Hrole).
      rewrite (bool_decide_eq_false_2 _ Hne). reflexivity. }
    split.
    + intros rating comment imageNumber file.
      unfold submitFeedback. run_handler.
      rewrite Hfind, (bool_decide_eq_true_2 _ Hstatus). cbn [negb].
      rewrite Hdeny. reflexivity.
    + unfold markSatisfied. run_handler.
      rewrite Hfind, (bool_decide_eq_true_2 _ Hstatus). cbn [negb].
      rewrite Hdeny. reflexivity.
Qed.

Lemma feedback_refused_on_completed_witness :
  submitFeedback Sample.client1 "task4" (Int 9) (Some "Great") None None 9000
    Sample.store
  = (mkResponse 500 false "Failed to submit feedback"
                (Some (ValidationError "feedback.rating")) NoData, Sample.store)
  /\ markSatisfied (mkPrincipal "client000002" client) "task4" 9000 Sample.store
     = (reject 403 "Not authorized", Sample.store).
Proof.
  destruct (feedback_refused_on_completed Sample.store Sample.client1 "task4"
              Sample.rated 9000 eq_refl eq_refl) as [Hbad _].
  destruct (feedback_refused_on_completed Sample.store
              (mkPrincipal "client000002" client) "task4" Sample.rated 9000
              eq_refl eq_refl) as [_ Hother].
  split.
  - apply Hbad; [intros _; reflexivity|].
    right. exists 9%Z. split; [reflexivity|]. right. lia.
  - apply Hother; [reflexivity|discriminate].
Defined.

(** X30. The start and complete operations answer 404 for an unknown
    task, 500 "Server error" (a TypeError) for a task that has no
    worker, and 403 for any caller other than the task's worker, an
    admin included; in each case nothing is written. *)
Theorem worker_transitions_refused (s : Store) (user : Principal)
    (taskId : oid) (la lo : option number) (now : date) :
  (tasks s !! taskId = None ->
   startTask user taskId la lo now s = (reject 404 "Task not found", s)
   /\ completeTask user taskId la lo now s = (reject 404 "Task not found", s))
  /\ (forall task,
        tasks s !! taskId = Some task ->
        Task.worker task = None ->
        startTask user taskId la lo now s
        = (mkResponse 500 false "Server error" (Some TypeError) NoData, s)
        /\ completeTask user taskId la lo now s
           = (mkResponse 500 false "Server error" (Some TypeError) NoData, s))
  /\ (forall task w,
        tasks s !! taskId = Some task ->
        Task.worker task = Some w ->
        w <> id user ->
        startTask user taskId la lo now s = (reject 403 "Not authorized", s)
        /\ completeTask user taskId la lo now s
           = (reject 403 "Not authorized", s)).
Proof.
  split; [|split].
  - intros Hnone. unfold startTask, completeTask. run_handler.
    rewrite Hnone. split; reflexivity.
  - intros task Hfind Hw. unfold startTask, completeTask. run_handler.
    rewrite Hfind, Hw. split; reflexivity.
  - intros task w Hfind Hw Hne. unfold startTask, completeTask. run_handler.
    rewrite Hfind, Hw. cbn.
    rewrite (bool_decide_eq_false_2 _ Hne). split; reflexivity.
Qed.

Lemma worker_transitions_refused_witness :
  startTask Sample.worker1 "nope" None None 1 Sample.store
  = (reject 404 "Task not found", Sample.store)
  /\ completeTask Sample.admin1 "task2" None None 1 Sample.store
     = (mkResponse 500 false "Server error" (Some TypeError) NoData,
        Sample.store)
  /\ startTask Sample.admin1 "task1" None None 1 Sample.store
     = (reject 403 "Not authorized", Sample.store).
Proof.
  destruct (worker_transitions_refused Sample.store Sample.worker1 "nope"
              None None 1) as (H404 & _ & _).
  destruct (worker_transitions_refused Sample.store Sample.admin1 "task2"
              None None 1) as (_ & H500 & _).
  destruct (worker_transitions_refused Sample.store Sample.admin1 "task1"
              None None 1) as (_ & _ & H403).
  split; [apply H404; reflexivity|].
  split.
  - apply (H500 Sample.unassigned); reflexivity.
  - apply (H403 Sample.started "worker1"); [reflexivity|reflexivity|discriminate].
Defined.
